(** * IBEX device generator: the generator's steps and its command line

    A shallow embedding of [ibex_device_generator/utils/step.py] and
    [ibex_device_generator/utils/arg_parser.py], and the properties of the
    step pipeline and of the command-line checkers proved over it.

    The step functions are sequences of calls to collaborators (template
    resolver and populator, build-list editor, git wrapper, build tool, GUI
    registry) around one shared, mutable [DeviceInfo] dictionary.  They are
    embedded in a state-and-exception monad over a world made of a store of
    dictionaries (so that two names can denote one object) and the trace of
    collaborator calls made so far. *)

From stdpp Require Import gmap strings list fin_maps pretty.
From Stdlib Require Import ZArith Lia Ascii DecimalString.

Open Scope Z_scope.

(** ** Python values *)

(** The values a [DeviceInfo] or an argparse [Namespace] holds. *)
Inductive value : Type :=
| VNone
| VBool (b : bool)
| VInt (z : Z)
| VStr (s : string).

#[global] Instance value_eq_dec : EqDecision value.
Proof. solve_decision. Defined.

(** Python truthiness, as used by [not x]. *)
Definition truthy (v : value) : bool :=
  match v with
  | VNone => false
  | VBool b => b
  | VInt z => negb (z =? 0)
  | VStr s => negb (String.eqb s EmptyString)
  end.

(** The outcome of a call that may raise. *)
Inductive Result (E A : Type) : Type :=
| Ok (a : A)
| Err (e : E).
Arguments Ok {E A} a.
Arguments Err {E A} e.

(** [range(lo, hi)] *)
Definition range (lo hi : Z) : list Z :=
  map (fun k => lo + Z.of_nat k) (seq 0 (Z.to_nat (hi - lo))).

(** ["{:02d}".format(i)]: the decimal numeral, zero-padded to width two
    (the sign counts towards the width, so only 0..9 get a pad). *)
Definition format_02d (i : Z) : string :=
  if (0 <=? i) && (i <? 10) then "0" +:+ pretty i else pretty i.

(** ** Placeholder keys *)

(** Modelled from the spec: the module [utils/placeholders.py] is missing;
    its constants are the placeholder keys the data model of the spec
    enumerates, each named by the key it stands for. *)
Module p.
Definition IOC_NAME : string := "ioc_name".
Definition DEVICE_NAME : string := "device_name".
Definition TICKET : string := "ticket".
Definition DEVICE_COUNT : string := "device_count".
Definition DEVICE_SUPPORT_MODULE_NAME : string := "device_support_module_name".
Definition GITHUB_REPO_NAME : string := "github_repo_name".
Definition SUPPORT_MASTER_PATH : string := "support_master_path".
Definition IOC_PATH : string := "ioc_path".
Definition INDEX : string := "index".
End p.

(** ** The steps of the generator ([utils/step.py]) *)
Module step.

(** Modelled from the spec: [ibex_device_generator/paths.py] is missing;
    its four constants are the well-known root directories, kept
    symbolic. *)
Inductive Root : Type := EPICS | EPICS_SUPPORT | IOC_ROOT | CLIENT_SRC.

#[global] Instance Root_eq_dec : EqDecision Root.
Proof. solve_decision. Defined.

(** Modelled from the spec: the class [DeviceInfo] of the missing
    [utils/device_info.py] is a mapping from placeholder key to value, read
    with [device[key]] (a [KeyError] when the key is absent) and written
    with [device[key] = v]. *)
Abbreviation DeviceInfo := (gmap string value).

(** Objects live in a store and are denoted by references. *)
Definition ref : Type := positive.

(** Modelled from the spec: [get_template(tag)] is a pure lookup of the
    template directory that carries the tag. *)
Inductive Template : Type := TemplateDir (tag : string).

#[global] Instance Template_eq_dec : EqDecision Template.
Proof. solve_decision. Defined.

(** One constructor per collaborator the steps call, with the arguments of
    the call.  A call that receives the [DeviceInfo] object records the
    reference it was given and the contents the object had at that
    moment. *)
Inductive Event : Type :=
| RepoWrapper_init (root : Root)
| RepoWrapper_create_submodule (root : Root) (name url path : value)
| github_repo_url_call (name : value)
| get_template_call (tag : string)
| populate_template_dir_call
    (template : Template) (root : Root) (subs : ref) (seen : DeviceInfo)
| add_to_makefile_list_call (file : Root) (var : string) (entry : value)
| run_command_call (argv : list string) (cwd : value)
| add_device_opi_to_opi_info_call (device : ref) (seen : DeviceInfo).

(** What a step can raise: the exceptions of its own lookups and
    arithmetic, and whatever a collaborator raises.  [DanglingRef] is a
    reference that denotes no object of the store; a step handed the
    reference of a stored device never meets it. *)
Inductive Exn : Type :=
| KeyError (key : string)
| TypeError
| DanglingRef
| Raised (what : string).

Record World : Type := mkWorld {
  heap : gmap ref DeviceInfo;
  trace : list Event
}.

(** The collaborators are outside [step.py].  Whether a call raises is
    decided by an oracle that sees the calls made before it and the call
    itself; [repo_url] is what [github_repo_url] returns. *)
Record Collab : Type := mkCollab {
  raises : list Event -> Event -> option Exn;
  repo_url : value -> value
}.

(** Computations: run from a world, end in a result and a world.  An
    exception keeps the effects made before it. *)
Definition M (A : Type) : Type := World -> Result Exn A * World.

#[global] Instance M_ret : MRet M := fun A a w => (Ok a, w).

#[global] Instance M_bind : MBind M := fun A B f m w =>
  match m w with
  | (Ok a, w') => f a w'
  | (Err e, w') => (Err e, w')
  end.

Definition raise {A : Type} (e : Exn) : M A := fun w => (Err e, w).

(** [for x in l: body(x)] *)
Fixpoint for_each {A : Type} (l : list A) (body : A -> M unit) : M unit :=
  match l with
  | [] => mret tt
  | x :: l' => body x ;; for_each l' body
  end.

Section Steps.

Variable C : Collab.

(** A collaborator call: it is recorded, then returns or raises. *)
Definition call (e : Event) : M unit := fun w =>
  let w' := mkWorld (heap w) (trace w ++ [e]) in
  match raises C (trace w) e with
  | Some x => (Err x, w')
  | None => (Ok tt, w')
  end.

(** [device[key]] *)
Definition getitem (device : ref) (key : string) : M value := fun w =>
  match heap w !! device with
  | None => (Err DanglingRef, w)
  | Some d =>
      match d !! key with
      | Some v => (Ok v, w)
      | None => (Err (KeyError key), w)
      end
  end.

(** [device[key] = v] *)
Definition setitem (device : ref) (key : string) (v : value) : M unit :=
  fun w =>
    match heap w !! device with
    | None => (Err DanglingRef, w)
    | Some d =>
        (Ok tt, mkWorld (<[device := <[key := v]> d]> (heap w)) (trace w))
    end.

(** [v + 1] on a value read from the dictionary: defined on integers (and
    booleans, which Python counts as 0 and 1); a [TypeError] otherwise. *)
Definition plus_one (v : value) : option Z :=
  match v with
  | VInt n => Some (n + 1)
  | VBool b => Some ((if b then 1 else 0) + 1)
  | _ => None
  end.

Definition add_one (v : value) : M Z :=
  match plus_one v with
  | Some n => mret n
  | None => raise TypeError
  end.

Definition RepoWrapper (root : Root) : M Root :=
  call (RepoWrapper_init root) ;; mret root.

Definition create_submodule_method
    (repo : Root) (name url path : value) : M unit :=
  call (RepoWrapper_create_submodule repo name url path).

Definition github_repo_url (name : value) : M value :=
  call (github_repo_url_call name) ;; mret (repo_url C name).

Definition get_template (tag : string) : M Template :=
  call (get_template_call tag) ;; mret (TemplateDir tag).

(** Modelled from the spec: [populate_template_dir] (in the missing
    [utils/templates.py]) only writes files: it reads the mapping it is
    given, leaves it as it is and calls no other collaborator. *)
Definition populate_template_dir
    (template : Template) (root : Root) (subs : ref) : M unit := fun w =>
  match heap w !! subs with
  | None => (Err DanglingRef, w)
  | Some d => call (populate_template_dir_call template root subs d) w
  end.

Definition add_to_makefile_list
    (file : Root) (var : string) (entry : value) : M unit :=
  call (add_to_makefile_list_call file var entry).

Definition run_command (argv : list string) (cwd : value) : M unit :=
  call (run_command_call argv cwd).

(** Modelled from the spec: [add_device_opi_to_opi_info] (in the missing
    [utils/gui.py]) writes the GUI registry and only reads the device. *)
Definition add_device_opi_to_opi_info (device : ref) : M unit := fun w =>
  match heap w !! device with
  | None => (Err DanglingRef, w)
  | Some d => call (add_device_opi_to_opi_info_call device d) w
  end.

Definition create_submodule (device : ref) : M unit :=
  epics_repo ← RepoWrapper EPICS;
  name ← getitem device p.DEVICE_SUPPORT_MODULE_NAME;
  repo_name ← getitem device p.GITHUB_REPO_NAME;
  url ← github_repo_url repo_name;
  path ← getitem device p.SUPPORT_MASTER_PATH;
  create_submodule_method epics_repo name url path ;;
  template ← get_template "3";
  populate_template_dir template EPICS device ;;
  entry ← getitem device p.DEVICE_SUPPORT_MODULE_NAME;
  add_to_makefile_list EPICS_SUPPORT "SUPPDIRS" entry.

Definition create_submodule_structure (device : ref) : M unit :=
  template ← get_template "4";
  populate_template_dir template EPICS device ;;
  cwd ← getitem device p.SUPPORT_MASTER_PATH;
  run_command ["make"%string] cwd.

(** The body of the loop of [create_ioc_from_template]: [subs = device]
    binds a second name to the same object. *)
Definition create_ioc_loop_body (device : ref) (i : Z) : M unit :=
  let subs := device in
  setitem subs p.INDEX (VStr (format_02d i)) ;;
  template ← get_template "5_2";
  populate_template_dir template EPICS subs.

Definition create_ioc_from_template (device : ref) : M unit :=
  template ← get_template "5_1";
  populate_template_dir template EPICS device ;;
  count ← getitem device p.DEVICE_COUNT;
  stop ← add_one count;
  for_each (range 2 stop) (create_ioc_loop_body device) ;;
  entry ← getitem device p.IOC_NAME;
  add_to_makefile_list IOC_ROOT "IOCDIRS" entry ;;
  cwd ← getitem device p.IOC_PATH;
  run_command ["make"%string] cwd.

Definition add_test_framework (device : ref) : M unit :=
  template ← get_template "6";
  populate_template_dir template EPICS device.

Definition add_lewis_emulator (device : ref) : M unit :=
  template ← get_template "7";
  populate_template_dir template EPICS device.

Definition add_opi_to_gui (device : ref) : M unit :=
  template ← get_template "8";
  populate_template_dir template CLIENT_SRC device ;;
  add_device_opi_to_opi_info device.

(** Run a computation from a store, with no call made yet. *)
Definition run {A : Type} (m : M A) (h : gmap ref DeviceInfo)
  : Result Exn A * World :=
  m (mkWorld h []).

End Steps.

(** Modelled from the spec: the orchestrator that calls the steps is
    missing; it runs them in the fixed order of the state machine, and
    these are the steps that follow the IOC population. *)
Definition later_steps (C : Collab) (device : ref) : M unit :=
  add_test_framework C device ;;
  add_lewis_emulator C device ;;
  add_opi_to_gui C device.

(** The calls made, the store left and the result returned by a computation
    run from the store [h]. *)
Definition calls {A : Type} (m : M A) (h : gmap ref DeviceInfo) : list Event :=
  trace (run m h).2.

Definition store_after {A : Type} (m : M A) (h : gmap ref DeviceInfo)
  : gmap ref DeviceInfo :=
  heap (run m h).2.

Definition result {A : Type} (m : M A) (h : gmap ref DeviceInfo)
  : Result Exn A :=
  (run m h).1.


(** Collaborators that never raise. *)
Definition quiet : Collab :=
  mkCollab (fun _ _ => None) (fun name => name).

(** A device as the placeholder registry resolves it, with [n] duplicate
    IOCs, for examples. *)
Definition demo_device (n : Z) : DeviceInfo :=
  list_to_map
    [ (p.IOC_NAME, VStr "CHOP");
      (p.DEVICE_NAME, VStr "chopper");
      (p.TICKET, VInt 42);
      (p.DEVICE_COUNT, VInt n);
      (p.DEVICE_SUPPORT_MODULE_NAME, VStr "chopper");
      (p.GITHUB_REPO_NAME, VStr "EPICS-chopper");
      (p.SUPPORT_MASTER_PATH, VStr "support/chopper/master");
      (p.IOC_PATH, VStr "ioc/master/CHOP") ].

(** *** What a trace shows *)

(** The build-list edits of a trace: file, variable and entry of each
    [add_to_makefile_list] call, in order. *)
Definition edits (t : list Event) : list (Root * string * value) :=
  omap (fun e =>
          match e with
          | add_to_makefile_list_call file var entry => Some (file, var, entry)
          | _ => None
          end) t.

(** The external-tool invocations of a trace: the git operation and the
    build tool. *)
Definition tool_invocations (t : list Event) : list Event :=
  omap (fun e =>
          match e with
          | RepoWrapper_create_submodule _ _ _ _ => Some e
          | run_command_call _ _ => Some e
          | _ => None
          end) t.

(** The template populations of a trace: template, target root, the
    reference passed as placeholders and what the mapping held. *)
Definition populations (t : list Event)
  : list (Template * Root * ref * DeviceInfo) :=
  omap (fun e =>
          match e with
          | populate_template_dir_call template root subs seen =>
              Some (template, root, subs, seen)
          | _ => None
          end) t.

(** The root a population targets. *)
Definition population_root (x : Template * Root * ref * DeviceInfo) : Root :=
  x.1.1.2.

(** At most one build-list edit and at most one external-tool invocation. *)
Definition at_most_one_edit_and_tool (t : list Event) : Prop :=
  (length (edits t) <= 1)%nat /\ (length (tool_invocations t) <= 1)%nat.

(** The template a population stamps. *)
Definition population_template (x : Template * Root * ref * DeviceInfo)
  : Template :=
  x.1.1.1.

(** The calls of the build tool. *)
Definition is_run_command (e : Event) : bool :=
  match e with
  | run_command_call _ _ => true
  | _ => false
  end.

(** The tags requested from [get_template]. *)
Definition requested_tags (t : list Event) : list string :=
  omap (fun e =>
          match e with
          | get_template_call tag => Some tag
          | _ => None
          end) t.

(** Every call of [t], made after the calls [hist], returned normally. *)
Fixpoint all_returned (C : Collab) (hist t : list Event) : Prop :=
  match t with
  | [] => True
  | e :: t' => raises C hist e = None /\ all_returned C (hist ++ [e]) t'
  end.

(** The calls of one pass through the loop of [create_ioc_from_template],
    and of the whole loop, from a device that holds [d] outside [index]. *)
Definition loop_pass (device : ref) (d : DeviceInfo) (i : Z) : list Event :=
  [ get_template_call "5_2";
    populate_template_dir_call (TemplateDir "5_2") EPICS device
      (<[p.INDEX := VStr (format_02d i)]> d) ].

Definition loop_events (device : ref) (d : DeviceInfo) (l : list Z)
  : list Event :=
  concat (map (loop_pass device d) l).

(** The device after the loop: [index] holds the last value it was given. *)
Definition after_loop (d : DeviceInfo) (l : list Z) : DeviceInfo :=
  match last l with
  | Some i => <[p.INDEX := VStr (format_02d i)]> d
  | None => d
  end.

(** The calls of [create_ioc_from_template] up to the build tool, and of a
    complete run. *)
Definition ioc_before_make
    (device : ref) (d : DeviceInfo) (stop : Z) (entry : value) : list Event :=
  [ get_template_call "5_1";
    populate_template_dir_call (TemplateDir "5_1") EPICS device d ]
  ++ loop_events device d (range 2 stop)
  ++ [ add_to_makefile_list_call IOC_ROOT "IOCDIRS" entry ].

Definition ioc_script
    (device : ref) (d : DeviceInfo) (stop : Z) (entry cwd : value)
  : list Event :=
  ioc_before_make device d stop entry
  ++ [ run_command_call ["make"%string] cwd ].

(** Calls of the template resolver and populator only, for the given tags,
    target root and placeholder object. *)
Definition template_event
    (tags : list string) (root : Root) (device : ref) (e : Event) : bool :=
  match e with
  | get_template_call tag => bool_decide (tag ∈ tags)
  | populate_template_dir_call (TemplateDir tag) r subs _ =>
      bool_decide (tag ∈ tags) && bool_decide (r = root)
      && bool_decide (subs = device)
  | _ => false
  end.

(** [d'] holds what [d] holds at every key but [index]. *)
Definition same_but_index (d d' : DeviceInfo) : Prop :=
  forall k, k <> p.INDEX -> d' !! k = d !! k.

(** The store [h'] is [h], but for the [index] of the object at [device]. *)
Definition index_frame (device : ref) (h h' : gmap ref DeviceInfo) : Prop :=
  h' = h
  \/ exists d d', h !! device = Some d /\ h' = <[device := d']> h
                /\ same_but_index d d'.

(** *** How exceptions travel *)

(** The calls [t], made after the calls [hist], fit the result [r]: when the
    step returned, every call returned; when it raised, either every call
    returned (the exception is the step's own) or all but the last call
    returned and the last call raised that very exception. *)
Definition propagates {A : Type}
    (C : Collab) (hist t : list Event) (r : Result Exn A) : Prop :=
  match r with
  | Ok _ => all_returned C hist t
  | Err x =>
      all_returned C hist t
      \/ exists t0 e,
          t = t0 ++ [e] /\ all_returned C hist t0
          /\ raises C (hist ++ t0) e = Some x
  end.

(** A computation that stops at the first call that raises and hands the
    exception on. *)
Definition fail_stop {A : Type} (C : Collab) (m : M A) : Prop :=
  forall w r w',
    m w = (r, w') ->
    exists t, trace w' = trace w ++ t /\ propagates C (trace w) t r.

(** The six steps of [step.py]. *)
Definition all_steps (C : Collab) : list (ref -> M unit) :=
  [ create_submodule C; create_submodule_structure C;
    create_ioc_from_template C; add_test_framework C;
    add_lewis_emulator C; add_opi_to_gui C ].

End step.

(** ** The command line ([utils/arg_parser.py]) *)
Module arg_parser.

(** [Namespace]: the attributes argparse sets, by name. *)
Abbreviation Namespace := (gmap string value).

(** The text of an error: that of an exception of the missing [exc.py],
    kept symbolic, or a literal. *)
Inductive Message : Type :=
| str_InvalidIOCNameError (ioc_name : string)
| str_InvalidDeviceNameError (device_name : string)
| str_InvalidDeviceCountError (count : Z)
| Text (s : string).

(** What a [type=] callable raises. *)
Inductive CheckExn : Type :=
| ArgumentTypeError (msg : Message)
| ValueError.

(** How a run of the parser stops short of a namespace: [parser.error]
    exits with status 2 and the help action with status 0;
    [AttributeError] is a read of an attribute the namespace lacks.  A
    command line this model of argparse does not cover is [NotModelled]. *)
Inductive Stop : Type :=
| SystemExit (code : Z)
| AttributeError (name : string)
| NotModelled.

(** *** argparse, as far as [parse_arguments] uses it

    The library is modelled after CPython 3.11: every argument takes one
    value ([nargs=None], action [store]) or none ([store_true], [help]). *)

Inductive Action : Type := store | store_true | help.

(** One [add_argument]: [option_strings] is empty for a positional;
    [default] is [None] when argparse sets no attribute (the help action). *)
Record Argument : Type := mkArgument {
  option_strings : list string;
  dest : string;
  action : Action;
  type : string -> Result CheckExn value;
  choices : option (list value);
  default : option value;
  required : bool
}.

(** [type=str], also what argparse does when no type is given. *)
Definition str (s : string) : Result CheckExn value := Ok (VStr s).

(** [s.split("=", 1)] of a string, when it holds an ["="]. *)
Fixpoint split_eq (s : string) : option (string * string) :=
  match s with
  | EmptyString => None
  | String c s' =>
      if Ascii.eqb c "="%char then Some (EmptyString, s')
      else match split_eq s' with
           | Some (l, r) => Some (String c l, r)
           | None => None
           end
  end.

Definition is_digit (c : ascii) : bool :=
  (48 <=? nat_of_ascii c)%nat && (nat_of_ascii c <=? 57)%nat.

Fixpoint all_digits (s : string) : bool :=
  match s with
  | EmptyString => true
  | String c s' => is_digit c && all_digits s'
  end.

Definition digits (s : string) : bool :=
  negb (String.eqb s EmptyString) && all_digits s.

(** The part of [s] after its first ["."], when it has one and only digits
    before it. *)
Fixpoint after_point (s : string) : option string :=
  match s with
  | EmptyString => None
  | String c s' =>
      if Ascii.eqb c "."%char then Some s'
      else if is_digit c then after_point s' else None
  end.

(** [_negative_number_matcher]: [^-\d+$|^-\d*\.\d+$] *)
Definition negative_number_like (s : string) : bool :=
  match s with
  | String c s' =>
      Ascii.eqb c "-"%char
      && (digits s' || match after_point s' with
                       | Some frac => digits frac
                       | None => false
                       end)
  | EmptyString => false
  end.

Fixpoint contains_space (s : string) : bool :=
  match s with
  | EmptyString => false
  | String c s' => Ascii.eqb c " "%char || contains_space s'
  end.

(** The action registered under an option string. *)
Definition find_option (parser : list Argument) (s : string)
  : option Argument :=
  List.find (fun a => existsb (String.eqb s) (option_strings a)) parser.

(** [_get_option_tuples]: the options a word that is no option string may
    abbreviate, each with the explicit argument the word would carry. *)
Definition get_option_tuples (parser : list Argument) (word : string)
  : list (Argument * string * option string) :=
  match word with
  | String c1 (String c2 rest) =>
      if negb (Ascii.eqb c1 "-"%char) then []
      else if Ascii.eqb c2 "-"%char then
        let '(option_prefix, explicit_arg) :=
          match split_eq word with
          | Some (l, r) => (l, Some r)
          | None => (word, None)
          end in
        flat_map
          (fun a =>
             flat_map
               (fun o =>
                  if String.prefix option_prefix o
                  then [(a, o, explicit_arg)] else [])
               (option_strings a))
          parser
      else
        let short_option_prefix := String c1 (String c2 EmptyString) in
        flat_map
          (fun a =>
             flat_map
               (fun o =>
                  if String.eqb o short_option_prefix
                  then [(a, o, Some rest)]
                  else if String.prefix word o then [(a, o, None)] else [])
               (option_strings a))
          parser
  | _ => []
  end.

Definition has_negative_number_optionals (parser : list Argument) : bool :=
  existsb (fun a => existsb negative_number_like (option_strings a)) parser.

(** How argparse reads one word of the command line. *)
Inductive Word : Type :=
| positional_word
| option_word (a : Argument) (option_string : string)
    (explicit_arg : option string)
| unknown_option_word
| ambiguous_word.

(** [_parse_optional] *)
Definition classify (parser : list Argument) (word : string) : Word :=
  match word with
  | EmptyString => positional_word
  | String c rest =>
      if negb (Ascii.eqb c "-"%char) then positional_word
      else
        match find_option parser word with
        | Some a => option_word a word None
        | None =>
            if String.eqb rest EmptyString then positional_word
            else
              let by_eq :=
                match split_eq word with
                | Some (o, e) =>
                    match find_option parser o with
                    | Some a => Some (option_word a o (Some e))
                    | None => None
                    end
                | None => None
                end in
              match by_eq with
              | Some w => w
              | None =>
                  match get_option_tuples parser word with
                  | _ :: _ :: _ => ambiguous_word
                  | [(a, o, e)] => option_word a o e
                  | [] =>
                      if negative_number_like word
                         && negb (has_negative_number_optionals parser)
                      then positional_word
                      else if contains_space word then positional_word
                      else unknown_option_word
                  end
              end
        end
  end.

(** Words that start with a dash. *)
Definition starts_with_dash (word : string) : bool :=
  match word with
  | String c _ => Ascii.eqb c "-"%char
  | EmptyString => false
  end.

Definition is_positional (w : Word) : bool :=
  match w with positional_word => true | _ => false end.

Definition is_ambiguous (w : Word) : bool :=
  match w with ambiguous_word => true | _ => false end.

(** A single-dash option string, such as ["-i"]. *)
Definition is_short (option_string : string) : bool :=
  match option_string with
  | String c1 (String c2 _) =>
      Ascii.eqb c1 "-"%char && negb (Ascii.eqb c2 "-"%char)
  | _ => false
  end.

(** The parser while it reads the command line: the namespace, the
    destinations set so far (they stand for the actions seen: no two
    arguments of the parser at hand share a destination), the positionals
    still to fill and the words nothing consumed. *)
Record State : Type := mkState {
  namespace : Namespace;
  seen : list string;
  positionals : list Argument;
  extras : list string
}.

(** [_get_values] for one value: convert with [type], then [_check_value]
    against [choices]; any failure is [parser.error]. *)
Definition get_values (a : Argument) (s : string) : Result Stop value :=
  match type a s with
  | Err _ => Err (SystemExit 2)
  | Ok v =>
      match choices a with
      | Some allowed =>
          if bool_decide (v ∈ allowed) then Ok v else Err (SystemExit 2)
      | None => Ok v
      end
  end.

Definition set_value (a : Argument) (v : value) (st : State) : State :=
  mkState (<[dest a := v]> (namespace st)) (dest a :: seen st)
    (positionals st) (extras st).

(** The action of an option that takes no value. *)
Definition take_flag (a : Argument) (st : State) : Result Stop State :=
  match action a with
  | store_true => Ok (set_value a (VBool true) st)
  | help => Err (SystemExit 0)
  | store => Err (SystemExit 2)
  end.

(** Single-dash flags written together, as in [-ih]: the flags that follow
    [a] in the word, when every letter is a flag. *)
Fixpoint clustered (parser : list Argument) (a : Argument) (letters : string)
  : Result Stop (list Argument) :=
  match letters with
  | EmptyString => Err (SystemExit 2)
  | String c rest =>
      match find_option parser (String "-"%char (String c EmptyString)) with
      | None => Err (SystemExit 2)
      | Some a' =>
          match action a' with
          | store => Err NotModelled
          | _ =>
              if String.eqb rest EmptyString then Ok [a; a']
              else match clustered parser a' rest with
                   | Ok l => Ok (a :: l)
                   | Err e => Err e
                   end
          end
      end
  end.

Fixpoint take_flags (l : list Argument) (st : State) : Result Stop State :=
  match l with
  | [] => Ok st
  | a :: l' =>
      match take_flag a st with
      | Ok st' => take_flags l' st'
      | Err e => Err e
      end
  end.

(** The main loop of [parse_known_args]: options and positionals in the
    order of the command line. *)
Fixpoint consume (parser : list Argument) (words : list string) (st : State)
  : Result Stop State :=
  match words with
  | [] => Ok st
  | word :: rest =>
      match classify parser word with
      | ambiguous_word => Err (SystemExit 2)
      | unknown_option_word =>
          consume parser rest
            (mkState (namespace st) (seen st) (positionals st)
               (extras st ++ [word]))
      | positional_word =>
          match positionals st with
          | [] =>
              consume parser rest
                (mkState (namespace st) (seen st) [] (extras st ++ [word]))
          | a :: more =>
              match get_values a word with
              | Err e => Err e
              | Ok v =>
                  consume parser rest
                    (mkState (<[dest a := v]> (namespace st))
                       (dest a :: seen st) more (extras st))
              end
          end
      | option_word a option_string explicit_arg =>
          match action a, explicit_arg with
          | store, Some s =>
              match get_values a s with
              | Err e => Err e
              | Ok v => consume parser rest (set_value a v st)
              end
          | store, None =>
              match rest with
              | s :: rest' =>
                  if is_positional (classify parser s) then
                    match get_values a s with
                    | Err e => Err e
                    | Ok v => consume parser rest' (set_value a v st)
                    end
                  else Err (SystemExit 2)
              | [] => Err (SystemExit 2)
              end
          | _, None =>
              match take_flag a st with
              | Err e => Err e
              | Ok st' => consume parser rest st'
              end
          | _, Some letters =>
              if is_short option_string then
                match clustered parser a letters with
                | Err e => Err e
                | Ok l =>
                    match take_flags l st with
                    | Err e => Err e
                    | Ok st' => consume parser rest st'
                    end
                end
              else Err (SystemExit 2)
          end
      end
  end.

(** The namespace before parsing: every default that is not suppressed. *)
Definition initial_namespace (parser : list Argument) : Namespace :=
  foldr (fun a ns =>
           match default a with
           | Some v => <[dest a := v]> ns
           | None => ns
           end) ∅ parser.

(** After the loop: a string default of an argument that was not given goes
    through [type]; a required argument that was not given is an error. *)
Fixpoint finish (l : list Argument) (seen : list string) (ns : Namespace)
  : Result Stop Namespace :=
  match l with
  | [] => Ok ns
  | a :: l' =>
      if bool_decide (dest a ∈ seen) then finish l' seen ns
      else if required a then
        match finish l' seen ns with
        | Ok _ => Err (SystemExit 2)
        | Err e => Err e
        end
      else
        match default a with
        | Some (VStr s) =>
            if bool_decide (ns !! dest a = Some (VStr s)) then
              match type a s with
              | Ok v => finish l' seen (<[dest a := v]> ns)
              | Err _ => Err (SystemExit 2)
              end
            else finish l' seen ns
        | _ => finish l' seen ns
        end
  end.

(** [parser.parse_args()] on the words after the program name. *)
Definition parse_args (parser : list Argument) (argv : list string)
  : Result Stop Namespace :=
  if bool_decide ("--"%string ∈ argv) then Err NotModelled
  else if existsb (fun w => is_ambiguous (classify parser w)) argv
  then Err (SystemExit 2)
  else
    match
      consume parser argv
        (mkState (initial_namespace parser) []
           (filter (fun a => option_strings a = []) parser) [])
    with
    | Err e => Err e
    | Ok st =>
        match finish parser (seen st) (namespace st) with
        | Err e => Err e
        | Ok ns =>
            match extras st with
            | [] => Ok ns
            | _ :: _ => Err (SystemExit 2)
            end
        end
    end.




(** *** The checkers and [parse_arguments] *)

(** Modelled from the spec: [DeviceInfo.default_device_count], of the
    missing [utils/device_info.py], is the default count of the CLI
    surface, 1. *)
Definition default_device_count : Z := 1.

Section Checkers.

(** The validators of the missing [utils/device_info.py], the issue lookup
    of the missing [utils/github.py], and Python's [int] on a string
    ([None] for a [ValueError]). *)
Variable is_valid_ioc_name : string -> bool.
Variable is_valid_device_name : string -> bool.
Variable is_valid_device_count : Z -> bool.
Variable does_github_issue_exist_and_is_open : Z -> bool.
Variable int : string -> option Z.

Definition ioc_name_checker (ioc_name : string) : Result CheckExn string :=
  if negb (is_valid_ioc_name ioc_name)
  then Err (ArgumentTypeError (str_InvalidIOCNameError ioc_name))
  else Ok ioc_name.

Definition device_name_checker (device_name : string)
  : Result CheckExn string :=
  if negb (is_valid_device_name device_name)
  then Err (ArgumentTypeError (str_InvalidDeviceNameError device_name))
  else Ok device_name.

Definition device_count_checker (val : string) : Result CheckExn Z :=
  match int val with
  | None => Err ValueError
  | Some count =>
      if negb (is_valid_device_count count)
      then Err (ArgumentTypeError (str_InvalidDeviceCountError count))
      else Ok count
  end.

Definition ticket_number_checker (val : string) : Result CheckExn Z :=
  match int val with
  | None => Err ValueError
  | Some ticket_number =>
      if negb (does_github_issue_exist_and_is_open ticket_number)
      then Err (ArgumentTypeError
                  (Text ("GitHub issue " +:+ pretty ticket_number
                         +:+ " is closed or does not exist.")))
      else Ok ticket_number
  end.

(** A checker as a [type=] callable: its result as a Python value. *)
Definition as_type {A : Type} (wrap : A -> value)
    (checker : string -> Result CheckExn A) (s : string)
  : Result CheckExn value :=
  match checker s with
  | Ok a => Ok (wrap a)
  | Err e => Err e
  end.

(** The help option every [ArgumentParser] starts with. *)
Definition help_argument : Argument :=
  mkArgument ["-h"; "--help"]%string "help" help str None None false.

Definition log_level_choices : list value :=
  [VStr "DEBUG"; VStr "INFO"; VStr "WARN"; VStr "ERROR"].

(** The parser [parse_arguments] builds, one entry per [add_argument]. *)
Definition parser : list Argument :=
  [ help_argument;
    mkArgument [] "ioc_name" store (as_type VStr ioc_name_checker)
      None (Some VNone) true;
    mkArgument [] "ticket" store (as_type VInt ticket_number_checker)
      None (Some VNone) true;
    mkArgument ["--device_name"%string] "device_name" store
      (as_type VStr device_name_checker) None (Some VNone) false;
    mkArgument ["--device_count"%string] "device_count" store
      (as_type VInt device_count_checker) None
      (Some (VInt default_device_count)) false;
    mkArgument ["--use_git"%string] "use_git" store_true str
      None (Some (VBool false)) false;
    mkArgument ["--github_token"%string] "github_token" store str
      None (Some VNone) false;
    mkArgument ["--log_level"%string] "log_level" store str
      (Some log_level_choices) (Some (VStr "INFO")) false;
    mkArgument ["-i"; "--interactive"]%string "interactive" store_true str
      None (Some (VBool false)) false ].


(** The namespace of a command line that gives the two positionals and
    no option. *)
Definition minimal_namespace (ioc_name : string) (ticket : Z) : Namespace :=
  list_to_map
    [ ("ioc_name"%string, VStr ioc_name);
      ("ticket"%string, VInt ticket);
      ("device_name"%string, VStr ioc_name);
      ("device_count"%string, VInt default_device_count);
      ("use_git"%string, VBool false);
      ("github_token"%string, VNone);
      ("log_level"%string, VStr "INFO");
      ("interactive"%string, VBool false) ].

(** [args.name] *)
Definition getattr (args : Namespace) (name : string) : Result Stop value :=
  match args !! name with
  | Some v => Ok v
  | None => Err (AttributeError name)
  end.

Definition parse_arguments (argv : list string) : Result Stop Namespace :=
  match parse_args parser argv with
  | Err e => Err e
  | Ok args =>
      match getattr args "device_name" with
      | Err e => Err e
      | Ok device_name =>
          if negb (truthy device_name) then
            match getattr args "ioc_name" with
            | Err e => Err e
            | Ok ioc_name => Ok (<["device_name"%string := ioc_name]> args)
            end
          else Ok args
      end
  end.

End Checkers.

(** Stand-ins to run the parser on examples: names are valid when they
    are not empty, counts when positive, issues 1 to 999 are open, and
    [int] reads a plain decimal numeral. *)
Definition demo_valid_name (s : string) : bool := negb (String.eqb s EmptyString).

Definition demo_valid_count (n : Z) : bool := 0 <? n.

Definition demo_issue_open (n : Z) : bool := (0 <? n) && (n <? 1000).

Definition demo_int (s : string) : option Z :=
  if String.eqb s EmptyString then None
  else Z.of_int <$> NilZero.int_of_string s.

Definition demo_parse_arguments : list string -> Result Stop Namespace :=
  parse_arguments demo_valid_name demo_valid_name demo_valid_count
    demo_issue_open demo_int.




End arg_parser.

(** ** Proofs about the steps *)

Section StepProofs.

Import step.


Ltac unfold_steps :=
  unfold create_submodule, create_submodule_structure,
    create_ioc_from_template, create_ioc_loop_body,
    add_test_framework, add_lewis_emulator, add_opi_to_gui,
    RepoWrapper, create_submodule_method, github_repo_url, get_template,
    populate_template_dir, add_to_makefile_list, run_command,
    add_device_opi_to_opi_info, add_one, raise, getitem, setitem, call,
    mbind, mret, M_bind, M_ret.

Ltac unfold_steps_in H :=
  unfold create_submodule, create_submodule_structure,
    create_ioc_from_template, create_ioc_loop_body,
    add_test_framework, add_lewis_emulator, add_opi_to_gui,
    RepoWrapper, create_submodule_method, github_repo_url, get_template,
    populate_template_dir, add_to_makefile_list, run_command,
    add_device_opi_to_opi_info, add_one, raise, getitem, setitem, call,
    mbind, mret, M_bind, M_ret in H.

(** Follow one hypothesis [E : m w = (r, w')] about a straight-line
    computation through its calls and lookups. *)
Ltac exec_in E :=
  unfold_steps_in E; cbn in E;
  repeat (match type of E with
          | context [match ?x with _ => _ end] =>
              lazymatch x with
              | context [match _ with _ => _ end] => fail
              | _ => destruct x eqn:?
              end
          end; cbn in E);
  simplify_eq.

Lemma all_returned_app C hist t1 t2 :
  all_returned C hist (t1 ++ t2)
  <-> all_returned C hist t1 /\ all_returned C (hist ++ t1) t2.
Proof.
  revert hist; induction t1 as [|e t1 IH]; intros hist; cbn.
  - rewrite app_nil_r. tauto.
  - rewrite IH, <- app_assoc. cbn. tauto.
Qed.

Lemma length_range lo hi : length (range lo hi) = Z.to_nat (hi - lo).
Proof. unfold range. by rewrite length_map, length_seq. Qed.


Lemma last_range lo hi : lo < hi -> last (range lo hi) = Some (hi - 1).
Proof.
  intros H. unfold range.
  replace (Z.to_nat (hi - lo)) with (Z.to_nat (hi - lo - 1) + 1)%nat by lia.
  rewrite seq_app, map_app. cbn. rewrite last_snoc. f_equal. lia.
Qed.

Lemma loop_events_insert device d x l :
  loop_events device (<[p.INDEX := x]> d) l = loop_events device d l.
Proof.
  unfold loop_events. f_equal. apply map_ext. intros i.
  unfold loop_pass. by rewrite insert_insert_eq.
Qed.

Lemma after_loop_cons d i l :
  after_loop d (i :: l) = after_loop (<[p.INDEX := VStr (format_02d i)]> d) l.
Proof.
  unfold after_loop. destruct l as [|j l]; [by cbn|].
  change (last (i :: j :: l)) with (last (j :: l)).
  destruct (last (j :: l)) eqn:E.
  - by rewrite insert_insert_eq.
  - by apply last_None in E.
Qed.

Lemma template_event_get tags root device tag :
  tag ∈ tags -> template_event tags root device (get_template_call tag).
Proof. intros H. cbn. by rewrite bool_decide_true. Qed.

Lemma template_event_populate tags root device tag d :
  tag ∈ tags ->
  template_event tags root device
    (populate_template_dir_call (TemplateDir tag) root device d).
Proof. intros H. cbn. by rewrite !bool_decide_true. Qed.

Lemma template_event_weaken tags tags' root device e :
  (forall tag, tag ∈ tags -> tag ∈ tags') ->
  template_event tags root device e -> template_event tags' root device e.
Proof.
  intros Hs. destruct e; cbn; try done.
  - intros H%bool_decide_unpack. apply bool_decide_pack. auto.
  - destruct template. rewrite !andb_True.
    intros [[H%bool_decide_unpack ?] ?]. repeat split; try done.
    apply bool_decide_pack. auto.
Qed.

Ltac template_events :=
  repeat first
    [ apply List.Forall_nil
    | assumption
    | apply List.Forall_cons;
      [ first [ apply template_event_get | apply template_event_populate ];
        set_solver
      | ] ].

Section Loop.

Variable C : Collab.
Variable device : ref.

(** A loop that completes made exactly the calls of [loop_events], each
    of which returned, and left [index] at its last value. *)
Lemma for_each_body_ok l : forall w w' d,
  heap w !! device = Some d ->
  for_each l (create_ioc_loop_body C device) w = (Ok tt, w') ->
  trace w' = trace w ++ loop_events device d l
  /\ heap w' = <[device := after_loop d l]> (heap w)
  /\ all_returned C (trace w) (loop_events device d l).
Proof.
  induction l as [|i l IH]; intros w w' d Hd H.
  - cbn in H. unfold mret, M_ret in H. simplify_eq. cbn.
    rewrite app_nil_r, insert_id; done.
  - cbn [for_each] in H. unfold mbind, M_bind in H.
    destruct (create_ioc_loop_body C device i w) as [[[]|e] w1] eqn:E1;
      [|done].
    unfold_steps_in E1. cbn in E1. rewrite Hd in E1. cbn in E1.
    destruct (raises C (trace w) _) eqn:R1; [done|]. cbn in E1.
    rewrite lookup_insert_eq in E1.
    destruct (raises C (trace w ++ _) _) eqn:R2; [done|].
    simplify_eq.
    apply IH with (d := <[p.INDEX := VStr (format_02d i)]> d) in H;
      [|cbn; by rewrite lookup_insert_eq].
    cbn [heap trace] in H. destruct H as (Ht & Hh & Hr).
    rewrite loop_events_insert in Ht, Hr.
    rewrite Ht, Hh, insert_insert_eq, after_loop_cons.
    rewrite <- !app_assoc in *.
    change (loop_events device d (i :: l))
      with (loop_pass device d i ++ loop_events device d l).
    cbn. rewrite <- ?app_assoc. cbn in *. done.
Qed.


(** However the loop ends, it made calls for template ["5_2"] only and
    wrote nothing but [index]. *)
Lemma for_each_body_any l : forall w r w' d,
  heap w !! device = Some d ->
  for_each l (create_ioc_loop_body C device) w = (r, w') ->
  exists t d',
    trace w' = trace w ++ t
    /\ Forall (fun e => template_event ["5_2"%string] EPICS device e) t
    /\ heap w' = <[device := d']> (heap w)
    /\ same_but_index d d'.
Proof.
  induction l as [|i l IH]; intros w r w' d Hd H.
  - cbn in H. unfold mret, M_ret in H. simplify_eq.
    exists [], d. rewrite app_nil_r, insert_id; done.
  - cbn [for_each] in H. unfold mbind, M_bind in H.
    destruct (create_ioc_loop_body C device i w) as [[[]|e] w1] eqn:E1.
    + unfold_steps_in E1. cbn in E1. rewrite Hd in E1. cbn in E1.
      destruct (raises C (trace w) _) eqn:R1; [done|]. cbn in E1.
      rewrite lookup_insert_eq in E1.
      destruct (raises C (trace w ++ _) _) eqn:R2; [done|].
      simplify_eq.
      apply IH with (d := <[p.INDEX := VStr (format_02d i)]> d) in H;
        [|cbn; by rewrite lookup_insert_eq].
      cbn [heap trace] in H. destruct H as (t & d' & Ht & Hf & Hh & Hs).
      eexists (_ :: _ :: t), d'. rewrite Ht, Hh, insert_insert_eq.
      rewrite <- !app_assoc. split; [reflexivity|]. split; [|split; [done|]].
      * template_events.
      * intros k Hk. rewrite Hs by done. by rewrite lookup_insert_ne.
    + simplify_eq.
      unfold_steps_in E1. cbn in E1. rewrite Hd in E1. cbn in E1.
      destruct (raises C (trace w) _) eqn:R1; cbn in E1.
      * simplify_eq. eexists [_], _. cbn. split; [reflexivity|].
        split; [template_events|]. split; [done|].
        intros k Hk. by rewrite lookup_insert_ne.
      * rewrite lookup_insert_eq in E1.
        destruct (raises C (trace w ++ _) _) eqn:R2; [|done].
        simplify_eq. eexists [_; _], _. cbn. rewrite <- app_assoc.
        split; [reflexivity|]. split; [template_events|]. split; [done|].
        intros k Hk. by rewrite lookup_insert_ne.
Qed.

End Loop.

Lemma lookup_after_loop d l k :
  k <> p.INDEX -> after_loop d l !! k = d !! k.
Proof.
  intros Hk. unfold after_loop. destruct (last l); [|done].
  by rewrite lookup_insert_ne.
Qed.

Lemma same_but_index_after_loop d l : same_but_index d (after_loop d l).
Proof. intros k Hk. by apply lookup_after_loop. Qed.

Lemma loop_events_template tags device d l :
  "5_2"%string ∈ tags ->
  Forall (fun ev => template_event tags EPICS device ev)
    (loop_events device d l).
Proof.
  intros Htag. induction l as [|i l IH]; [constructor|].
  change (loop_events device d (i :: l))
    with (loop_pass device d i ++ loop_events device d l).
  apply Forall_app_2; [|done]. unfold loop_pass.
  repeat first [ apply List.Forall_nil
               | apply List.Forall_cons;
                 [ first [by apply template_event_get
                         | by apply template_event_populate] |] ].
Qed.

Lemma getitem_eq device k w d :
  heap w !! device = Some d ->
  getitem device k w
  = (match d !! k with Some v => Ok v | None => Err (KeyError k) end, w).
Proof. intros H. unfold getitem. rewrite H. by destruct (d !! k). Qed.

(** The two ways a run of [create_ioc_from_template] can go: it stops with
    an exception before the build tool is called, having made template
    calls and at most the build-list edit; or it makes every call of
    [ioc_script], all of which but possibly the last returned. *)
Lemma create_ioc_from_template_outcome C device w r w' :
  create_ioc_from_template C device w = (r, w') ->
  (exists e pre suf,
      r = Err e
      /\ trace w' = trace w ++ pre ++ suf
      /\ Forall (fun ev => template_event ["5_1"; "5_2"]%string EPICS device ev)
           pre
      /\ (suf = []
          \/ exists d entry,
               heap w !! device = Some d /\ d !! p.IOC_NAME = Some entry
               /\ suf = [add_to_makefile_list_call IOC_ROOT "IOCDIRS" entry])
      /\ index_frame device (heap w) (heap w'))
  \/ (exists d count stop entry cwd,
        heap w !! device = Some d
        /\ d !! p.DEVICE_COUNT = Some count
        /\ plus_one count = Some stop
        /\ d !! p.IOC_NAME = Some entry
        /\ d !! p.IOC_PATH = Some cwd
        /\ trace w' = trace w ++ ioc_script device d stop entry cwd
        /\ heap w' = <[device := after_loop d (range 2 stop)]> (heap w)
        /\ all_returned C (trace w) (ioc_before_make device d stop entry)
        /\ r = match raises C (trace w ++ ioc_before_make device d stop entry)
                       (run_command_call ["make"%string] cwd) with
               | Some x => Err x
               | None => Ok tt
               end).
Proof.
  intros H. unfold create_ioc_from_template in H.
  unfold mbind, M_bind in H.
  destruct (get_template C "5_1" w) as [[t1|e1] w1] eqn:E1.
  2:{ exec_in E1. left. eexists _, [_], []. cbn.
      repeat split; [template_events|by left|by left]. }
  exec_in E1.
  destruct (populate_template_dir C _ EPICS device _) as [[[]|e2] w2] eqn:E2.
  2:{ exec_in E2; left.
      - eexists _, [_; _], []. cbn. rewrite <- app_assoc.
        repeat split; [template_events|by left|by left].
      - eexists _, [_], []. cbn.
        repeat split; [template_events|by left|by left]. }
  exec_in E2. rename g into d.
  assert (Hpre : Forall
            (fun ev => template_event ["5_1"; "5_2"]%string EPICS device ev)
            [get_template_call "5_1";
             populate_template_dir_call (TemplateDir "5_1") EPICS device d])
    by template_events.
  rewrite <- app_assoc in H. cbn [app] in H.
  erewrite getitem_eq in H by (cbn; eassumption).
  destruct (d !! p.DEVICE_COUNT) as [count|] eqn:Ecount.
  2:{ simplify_eq. left. eexists _, _, []. cbn. rewrite app_nil_r.
      repeat split; [done|by left|by left]. }
  destruct (add_one count _) as [[stop|e4] w4] eqn:E4.
  2:{ exec_in E4. left. eexists _, _, []. cbn. rewrite app_nil_r.
      repeat split; [done|by left|by left]. }
  exec_in E4. rename Heqo2 into Estop.
  destruct (for_each (range 2 stop) _ _) as [[[]|e5] w5] eqn:E5.
  2:{ simplify_eq.
      eapply for_each_body_any in E5; [|cbn; eassumption].
      cbn in E5. destruct E5 as (t & d' & Ht & Hf & Hh & Hs).
      left. eexists _, (_ :: _ :: t), []. rewrite app_nil_r.
      split; [done|]. split; [rewrite Ht, <- app_assoc; reflexivity|].
      split; [|split; [by left|]].
      - apply (Forall_app_2 _ [_; _]); [done|].
        eapply Forall_impl; [exact Hf|]. cbn. intros ev.
        apply template_event_weaken. intros tag Htag. by right.
      - right. exists d, d'. by rewrite Hh. }
  eapply for_each_body_ok in E5; [|cbn; eassumption].
  cbn in E5. destruct E5 as (Ht & Hh & Hr).
  erewrite getitem_eq in H by (rewrite Hh; apply lookup_insert_eq).
  rewrite lookup_after_loop in H by done.
  assert (Hloop : Forall
            (fun ev => template_event ["5_1"; "5_2"]%string EPICS device ev)
            ([get_template_call "5_1";
              populate_template_dir_call (TemplateDir "5_1") EPICS device d]
             ++ loop_events device d (range 2 stop))).
  { apply Forall_app_2; [done|]. apply loop_events_template. set_solver. }
  assert (Hframe : index_frame device (heap w) (heap w5)).
  { right. exists d, (after_loop d (range 2 stop)).
    repeat split; try done. apply same_but_index_after_loop. }
  rewrite <- app_assoc in Ht.
  destruct (d !! p.IOC_NAME) as [entry|] eqn:Eentry.
  2:{ simplify_eq. left. eexists _, _, []. rewrite app_nil_r.
      split; [done|]. split; [exact Ht|]. split; [exact Hloop|].
      split; [by left|done]. }
  destruct (add_to_makefile_list C _ _ _ _) as [[[]|e6] w6] eqn:E6.
  2:{ exec_in E6. left.
      eexists _, _, [add_to_makefile_list_call IOC_ROOT "IOCDIRS" entry].
      split; [done|]. cbn [trace heap].
      split; [rewrite Ht, <- app_assoc; f_equal; apply app_assoc|].
      split; [exact Hloop|]. split; [right; by exists d, entry|done]. }
  exec_in E6. rename Heqo2 into Redit.
  erewrite getitem_eq in H by (cbn; rewrite Hh; apply lookup_insert_eq).
  rewrite lookup_after_loop in H by done.
  destruct (d !! p.IOC_PATH) as [cwd|] eqn:Ecwd.
  2:{ simplify_eq. left.
      eexists _, _, [add_to_makefile_list_call IOC_ROOT "IOCDIRS" entry].
      split; [done|]. cbn [trace heap].
      split; [rewrite Ht, <- app_assoc; f_equal; apply app_assoc|].
      split; [exact Hloop|]. split; [right; by exists d, entry|done]. }
  assert (Hbefore : trace w5 ++ [add_to_makefile_list_call IOC_ROOT "IOCDIRS" entry]
                    = trace w ++ ioc_before_make device d stop entry).
  { unfold ioc_before_make. rewrite Ht, <- !app_assoc. reflexivity. }
  right. exists d, count, stop, entry, cwd.
  assert (Hret : all_returned C (trace w)
                   (ioc_before_make device d stop entry)).
  { unfold ioc_before_make. rewrite app_assoc.
    apply all_returned_app. split.
    - apply all_returned_app. split; [by cbn|exact Hr].
    - split; [|done]. rewrite <- Ht. exact Redit. }
  unfold run_command, call in H. cbn [trace heap] in H. rewrite Hbefore in H.
  destruct (raises C _ (run_command_call _ _)) eqn:Rrun; simplify_eq;
    cbn [trace heap]; do 5 (split; [done|]);
    (split; [unfold ioc_script; by rewrite app_assoc|]);
    (split; [done|]); (split; [exact Hret|done]).
Qed.

(** *** Observations on template calls *)

Lemma edits_template tags root device t :
  Forall (fun ev => template_event tags root device ev) t -> edits t = [].
Proof.
  induction 1 as [|e t He _ IH]; [done|].
  destruct e; try done; cbn; exact IH.
Qed.

Lemma tool_invocations_template tags root device t :
  Forall (fun ev => template_event tags root device ev) t ->
  tool_invocations t = [].
Proof.
  induction 1 as [|e t He _ IH]; [done|].
  destruct e; try done; cbn; exact IH.
Qed.

Lemma requested_tags_template tags root device t :
  Forall (fun ev => template_event tags root device ev) t ->
  Forall (fun tag => tag ∈ tags) (requested_tags t).
Proof.
  induction 1 as [|e t He _ IH]; [constructor|].
  destruct e; try done; cbn; try exact IH.
  constructor; [|exact IH]. by apply bool_decide_unpack in He.
Qed.

Lemma populations_template tags root device t :
  Forall (fun ev => template_event tags root device ev) t ->
  Forall (fun x => x.1.1.2 = root) (populations t).
Proof.
  induction 1 as [|e t He _ IH]; [constructor|].
  destruct e; try done; cbn; try exact IH.
  constructor; [|exact IH]. cbn in *. destruct template.
  apply andb_True in He as [He _]. apply andb_True in He as [_ He].
  by apply bool_decide_unpack in He.
Qed.

Lemma populations_loop_events device d l :
  populations (loop_events device d l)
  = map (fun i => (TemplateDir "5_2", EPICS, device,
                   <[p.INDEX := VStr (format_02d i)]> d)) l.
Proof. induction l as [|i l IH]; [done|]. cbn. by rewrite <- IH. Qed.

Lemma requested_tags_loop_events device d l :
  requested_tags (loop_events device d l)
  = replicate (length l) "5_2"%string.
Proof. induction l as [|i l IH]; [done|]. cbn. by rewrite <- IH. Qed.

Lemma populations_ioc_script device d stop entry cwd :
  populations (ioc_script device d stop entry cwd)
  = (TemplateDir "5_1", EPICS, device, d)
    :: map (fun i => (TemplateDir "5_2", EPICS, device,
                      <[p.INDEX := VStr (format_02d i)]> d)) (range 2 stop).
Proof.
  unfold ioc_script, ioc_before_make, populations.
  rewrite !omap_app. cbn. f_equal. rewrite !app_nil_r.
  apply populations_loop_events.
Qed.

(** *** Runs in which no collaborator raises *)





(** *** The IOC-population step *)

(** A run of [create_ioc_from_template] that returns made every call of
    [ioc_script] and left [index] at the last value of the loop. *)
Lemma create_ioc_from_template_ok C device w w' d :
  heap w !! device = Some d ->
  create_ioc_from_template C device w = (Ok tt, w') ->
  exists count stop entry cwd,
    d !! p.DEVICE_COUNT = Some count
    /\ plus_one count = Some stop
    /\ trace w' = trace w ++ ioc_script device d stop entry cwd
    /\ heap w' = <[device := after_loop d (range 2 stop)]> (heap w).
Proof.
  intros Hd H.
  apply create_ioc_from_template_outcome in H
    as [(e & pre & suf & Hr & _)
       |(d0 & count & stop & entry & cwd & Hd0 & Hc & Hs & _ & _ & Ht & Hh & _)];
    [done|].
  simplify_eq. by exists count, stop, entry, cwd.
Qed.



(** The steps after the IOC population only read the device: each
    population they make, and the GUI registry, sees it as it was left. *)
Lemma later_steps_outcome C device w r w' d :
  heap w !! device = Some d ->
  later_steps C device w = (r, w') ->
  heap w' = heap w
  /\ exists t,
      trace w' = trace w ++ t
      /\ Forall (fun x => x.1.2 = device /\ x.2 = d) (populations t)
      /\ (r = Ok tt ->
          t = [ get_template_call "6";
                populate_template_dir_call (TemplateDir "6") EPICS device d;
                get_template_call "7";
                populate_template_dir_call (TemplateDir "7") EPICS device d;
                get_template_call "8";
                populate_template_dir_call (TemplateDir "8") CLIENT_SRC
                  device d;
                add_device_opi_to_opi_info_call device d ]).
Proof.
  intros Hd H. unfold later_steps in H. unfold_steps_in H. cbn in H.
  rewrite ?Hd in H.
  repeat (match type of H with
          | context [match ?x with _ => _ end] =>
              lazymatch x with
              | context [match _ with _ => _ end] => fail
              | _ => destruct x eqn:?
              end
          end; cbn in H; rewrite ?Hd in H);
    simplify_eq; cbn [heap trace]; (split; [done|]);
    rewrite <- ?app_assoc; eexists; (split; [reflexivity|]);
    cbn; (split; [repeat constructor|done]).
Qed.

(** C9: in [create_ioc_from_template] the name [subs] denotes the shared
    device object itself.  For a device count N >= 2, when the step
    returns the shared object holds [index] = ["{:02d}".format(N)] (every
    other key as before); the steps that follow leave the object as it
    is, and every population they make, as well as the GUI registry
    update, is handed that object with this [index]. *)
Theorem create_ioc_from_template_leaves_index C h device d N w1 :
  h !! device = Some d ->
  d !! p.DEVICE_COUNT = Some (VInt N) ->
  2 <= N ->
  run (create_ioc_from_template C device) h = (Ok tt, w1) ->
  heap w1 = <[device := <[p.INDEX := VStr (format_02d N)]> d]> h
  /\ Forall (fun x => x.1.2 = device) (populations (trace w1))
  /\ forall r w2,
      later_steps C device w1 = (r, w2) ->
      heap w2 = heap w1
      /\ exists t,
          trace w2 = trace w1 ++ t
          /\ Forall (fun x => x.1.2 = device
                             /\ x.2 !! p.INDEX = Some (VStr (format_02d N)))
               (populations t)
          /\ (r = Ok tt ->
              populations t
              = [ (TemplateDir "6", EPICS, device,
                   <[p.INDEX := VStr (format_02d N)]> d);
                  (TemplateDir "7", EPICS, device,
                   <[p.INDEX := VStr (format_02d N)]> d);
                  (TemplateDir "8", CLIENT_SRC, device,
                   <[p.INDEX := VStr (format_02d N)]> d) ]
              /\ add_device_opi_to_opi_info_call device
                   (<[p.INDEX := VStr (format_02d N)]> d) ∈ t).
Proof.
  intros Hd Hcount HN H. unfold run in H.
  eapply create_ioc_from_template_ok in H; [|cbn; eassumption].
  destruct H as (count & stop & entry & cwd & Hc & Hs & Ht & Hh).
  cbn [trace heap app] in Ht, Hh. simplify_eq. cbn in Hs. simplify_eq.
  assert (Hafter : after_loop d (range 2 (N + 1))
                   = <[p.INDEX := VStr (format_02d N)]> d).
  { unfold after_loop. rewrite last_range by lia.
    by replace (N + 1 - 1) with N by lia. }
  rewrite Hafter in Hh. split; [done|]. split.
  { rewrite Ht, populations_ioc_script. constructor; [done|].
    apply Forall_map, Forall_forall. done. }
  intros r w2 H2.
  eapply later_steps_outcome in H2; [|rewrite Hh; apply lookup_insert_eq].
  destruct H2 as (Hh2 & t & Ht2 & Hpop & Hok).
  split; [done|]. exists t. split; [done|]. split.
  - eapply Forall_impl; [exact Hpop|]. intros x [? ->].
    split; [done|]. apply lookup_insert_eq.
  - intros ->. rewrite Hok by done. split; [done|]. set_solver.
Qed.

Lemma create_ioc_from_template_leaves_index_witness :
  heap (run (create_ioc_from_template quiet 1%positive)
          {[ 1%positive := demo_device 3 ]}).2
  = <[1%positive := <[p.INDEX := VStr "03"]> (demo_device 3)]>
      {[ 1%positive := demo_device 3 ]}.
Proof.
  apply (create_ioc_from_template_leaves_index quiet
           {[ 1%positive := demo_device 3 ]} 1%positive (demo_device 3) 3);
    [reflexivity | reflexivity | lia | vm_compute; reflexivity].
Defined.

(** *** All steps, all outcomes *)

(** Follow a straight-line step, run from a store, through every outcome. *)
Ltac exec_goal :=
  unfold calls, store_after, result, run; unfold_steps; cbn;
  repeat (match goal with
          | |- context [match ?x with _ => _ end] =>
              lazymatch x with
              | context [match _ with _ => _ end] => fail
              | _ => destruct x eqn:?
              end
          end; cbn).

(** However [create_ioc_from_template] ends, its calls are template calls
    for "5_1" and "5_2" into EPICS, followed by nothing, by the build-list
    edit, or by the edit and the build. *)
Lemma create_ioc_from_template_shape C h device :
  exists pre suf,
    calls (create_ioc_from_template C device) h = pre ++ suf
    /\ Forall (fun ev => template_event ["5_1"; "5_2"]%string EPICS device ev)
         pre
    /\ (suf = []
        \/ exists d entry,
             h !! device = Some d /\ d !! p.IOC_NAME = Some entry
             /\ (suf = [add_to_makefile_list_call IOC_ROOT "IOCDIRS" entry]
                 \/ exists cwd,
                      d !! p.IOC_PATH = Some cwd
                      /\ suf = [add_to_makefile_list_call IOC_ROOT "IOCDIRS"
                                  entry;
                                run_command_call ["make"%string] cwd])).
Proof.
  unfold calls, run.
  destruct (create_ioc_from_template C device (mkWorld h [])) as [r w'] eqn:H.
  apply create_ioc_from_template_outcome in H
    as [(e & pre & suf & _ & Ht & Hpre & Hsuf & _)
       |(d & count & stop & entry & cwd & Hd & _ & _ & He & Hc & Ht & _)];
    cbn [trace heap app snd] in *.
  - exists pre, suf. split; [done|]. split; [done|].
    destruct Hsuf as [->|(d & entry & ? & ? & ->)]; [by left|].
    right. exists d, entry. split; [done|]. split; [done|]. by left.
  - exists ([ get_template_call "5_1";
              populate_template_dir_call (TemplateDir "5_1") EPICS device d ]
            ++ loop_events device d (range 2 stop)),
      [ add_to_makefile_list_call IOC_ROOT "IOCDIRS" entry;
        run_command_call ["make"%string] cwd ].
    split; [|split].
    + rewrite Ht. unfold ioc_script, ioc_before_make.
      rewrite <- !app_assoc. reflexivity.
    + apply Forall_app_2; [template_events|].
      apply loop_events_template. set_solver.
    + right. exists d, entry. split; [done|]. split; [done|].
      right. by exists cwd.
Qed.

(** C4: the five steps other than [create_ioc_from_template] leave the
    store of device objects exactly as they found it, whatever their
    outcome; [create_ioc_from_template] leaves it as it found it but for the
    [index] key of the device it was given. *)
Theorem steps_write_only_index C h device :
  store_after (create_submodule C device) h = h
  /\ store_after (create_submodule_structure C device) h = h
  /\ store_after (add_test_framework C device) h = h
  /\ store_after (add_lewis_emulator C device) h = h
  /\ store_after (add_opi_to_gui C device) h = h
  /\ index_frame device h (store_after (create_ioc_from_template C device) h).
Proof.
  split; [by exec_goal|]. split; [by exec_goal|]. split; [by exec_goal|].
  split; [by exec_goal|]. split; [by exec_goal|].
  unfold store_after, run.
  destruct (create_ioc_from_template C device (mkWorld h [])) as [r w'] eqn:H.
  apply create_ioc_from_template_outcome in H
    as [(e & pre & suf & _ & _ & _ & _ & Hf)
       |(d & count & stop & entry & cwd & Hd & _ & _ & _ & _ & _ & Hh & _)];
    cbn [trace heap app snd] in *; [done|].
  right. exists d, (after_loop d (range 2 stop)).
  split; [done|]. split; [done|]. apply same_but_index_after_loop.
Qed.

Lemma populations_app t1 t2 :
  populations (t1 ++ t2) = populations t1 ++ populations t2.
Proof. apply omap_app. Qed.

Lemma edits_app t1 t2 : edits (t1 ++ t2) = edits t1 ++ edits t2.
Proof. apply omap_app. Qed.

Lemma tool_invocations_app t1 t2 :
  tool_invocations (t1 ++ t2) = tool_invocations t1 ++ tool_invocations t2.
Proof. apply omap_app. Qed.

Lemma requested_tags_app t1 t2 :
  requested_tags (t1 ++ t2) = requested_tags t1 ++ requested_tags t2.
Proof. apply omap_app. Qed.

(** C10: every template population of the steps other than
    [add_opi_to_gui] targets EPICS, whatever the outcome of the step;
    [add_opi_to_gui] populates into CLIENT_SRC and nowhere else, and does so
    as soon as its template is resolved. *)
Theorem population_roots C h device :
  Forall (fun x => population_root x = EPICS)
    (populations (calls (create_submodule C device) h))
  /\ Forall (fun x => population_root x = EPICS)
       (populations (calls (create_submodule_structure C device) h))
  /\ Forall (fun x => population_root x = EPICS)
       (populations (calls (create_ioc_from_template C device) h))
  /\ Forall (fun x => population_root x = EPICS)
       (populations (calls (add_test_framework C device) h))
  /\ Forall (fun x => population_root x = EPICS)
       (populations (calls (add_lewis_emulator C device) h))
  /\ populations (calls (add_opi_to_gui C device) h)
     = match raises C [] (get_template_call "8"), h !! device with
       | None, Some d => [(TemplateDir "8", CLIENT_SRC, device, d)]
       | _, _ => []
       end
  /\ Forall (fun x => population_root x = CLIENT_SRC)
       (populations (calls (add_opi_to_gui C device) h)).
Proof.
  split; [exec_goal; repeat constructor|].
  split; [exec_goal; repeat constructor|].
  split.
  { destruct (create_ioc_from_template_shape C h device)
      as (pre & suf & -> & Hpre & Hsuf).
    rewrite populations_app. apply Forall_app_2.
    - by apply populations_template in Hpre.
    - destruct Hsuf as [->|(d & entry & _ & _ & [->|(cwd & _ & ->)])];
        constructor. }
  split; [exec_goal; repeat constructor|].
  split; [exec_goal; repeat constructor|].
  split; [by exec_goal|].
  exec_goal; repeat constructor.
Qed.

Lemma requested_tags_ioc_script device d stop entry cwd :
  requested_tags (ioc_script device d stop entry cwd)
  = "5_1"%string :: replicate (Z.to_nat (stop - 2)) "5_2"%string.
Proof.
  unfold ioc_script, ioc_before_make.
  rewrite !requested_tags_app, requested_tags_loop_events, length_range.
  cbn. by rewrite !app_nil_r.
Qed.

(** C5: whatever its outcome, each step requests from [get_template] no tag
    but its own: "3" for [create_submodule], "4" for
    [create_submodule_structure], "5_1" and "5_2" for
    [create_ioc_from_template], "6" for [add_test_framework], "7" for
    [add_lewis_emulator], "8" for [add_opi_to_gui].  A step that returns has
    requested exactly its tag, once, and populated from the template it
    got; [create_ioc_from_template], for a device count N >= 1, has requested
    "5_1" and then "5_2" N - 1 times. *)
Theorem template_tags_of_steps C h device :
  (requested_tags (calls (create_submodule C device) h) `prefix_of` ["3"%string]
   /\ requested_tags (calls (create_submodule_structure C device) h)
        `prefix_of` ["4"%string]
   /\ Forall (fun tag => tag ∈ ["5_1"; "5_2"]%string)
        (requested_tags (calls (create_ioc_from_template C device) h))
   /\ requested_tags (calls (add_test_framework C device) h)
        `prefix_of` ["6"%string]
   /\ requested_tags (calls (add_lewis_emulator C device) h)
        `prefix_of` ["7"%string]
   /\ requested_tags (calls (add_opi_to_gui C device) h)
        `prefix_of` ["8"%string])
  /\ (result (create_submodule C device) h = Ok tt ->
      requested_tags (calls (create_submodule C device) h) = ["3"%string]
      /\ map population_template
           (populations (calls (create_submodule C device) h))
         = [TemplateDir "3"])
  /\ (result (create_submodule_structure C device) h = Ok tt ->
      requested_tags (calls (create_submodule_structure C device) h)
      = ["4"%string]
      /\ map population_template
           (populations (calls (create_submodule_structure C device) h))
         = [TemplateDir "4"])
  /\ (forall d N,
        h !! device = Some d ->
        d !! p.DEVICE_COUNT = Some (VInt N) ->
        1 <= N ->
        result (create_ioc_from_template C device) h = Ok tt ->
        requested_tags (calls (create_ioc_from_template C device) h)
        = "5_1"%string :: replicate (Z.to_nat (N - 1)) "5_2"%string
        /\ map population_template
             (populations (calls (create_ioc_from_template C device) h))
           = TemplateDir "5_1"
             :: replicate (Z.to_nat (N - 1)) (TemplateDir "5_2"))
  /\ (result (add_test_framework C device) h = Ok tt ->
      requested_tags (calls (add_test_framework C device) h) = ["6"%string]
      /\ map population_template
           (populations (calls (add_test_framework C device) h))
         = [TemplateDir "6"])
  /\ (result (add_lewis_emulator C device) h = Ok tt ->
      requested_tags (calls (add_lewis_emulator C device) h) = ["7"%string]
      /\ map population_template
           (populations (calls (add_lewis_emulator C device) h))
         = [TemplateDir "7"])
  /\ (result (add_opi_to_gui C device) h = Ok tt ->
      requested_tags (calls (add_opi_to_gui C device) h) = ["8"%string]
      /\ map population_template
           (populations (calls (add_opi_to_gui C device) h))
         = [TemplateDir "8"]).
Proof.
  split.
  { split; [exec_goal; by eexists|]. split; [exec_goal; by eexists|].
    split.
    { destruct (create_ioc_from_template_shape C h device)
        as (pre & suf & -> & Hpre & Hsuf).
      rewrite requested_tags_app. apply Forall_app_2.
      - by apply requested_tags_template in Hpre.
      - destruct Hsuf as [->|(d & entry & _ & _ & [->|(cwd & _ & ->)])];
          constructor. }
    split; [exec_goal; by eexists|]. split; exec_goal; by eexists. }
  split; [by exec_goal|]. split; [by exec_goal|].
  split; [|split; [by exec_goal|split; by exec_goal]].
  intros d N Hd Hcount HN. unfold result, calls, run.
  destruct (create_ioc_from_template C device (mkWorld h [])) as [r w'] eqn:H.
  cbn [fst snd]. intros ->.
  eapply create_ioc_from_template_ok in H; [|cbn; eassumption].
  destruct H as (count & stop & entry & cwd & Hc & Hs & Ht & _).
  cbn [trace app] in Ht. simplify_eq. cbn in Hs. simplify_eq.
  rewrite Ht, requested_tags_ioc_script, populations_ioc_script.
  replace (N + 1 - 2) with (N - 1) by lia. split; [done|].
  cbn. f_equal. rewrite map_map. cbn.
  assert (Hlen : length (range 2 (N + 1)) = Z.to_nat (N - 1))
    by (rewrite length_range; f_equal; lia).
  rewrite <- Hlen. clear Hlen Ht.
  generalize (range 2 (N + 1)). intros l.
  induction l as [|i l IH]; [done|]. cbn. by rewrite IH.
Qed.

Lemma template_tags_of_steps_witness :
  requested_tags
    (calls (create_ioc_from_template quiet 1%positive)
       {[ 1%positive := demo_device 3 ]})
  = ["5_1"; "5_2"; "5_2"]%string.
Proof.
  destruct (template_tags_of_steps quiet {[ 1%positive := demo_device 3 ]}
              1%positive) as (_ & _ & _ & Hioc & _).
  destruct (Hioc (demo_device 3) 3) as [Htags _];
    [reflexivity | reflexivity | lia | vm_compute; reflexivity |].
  exact Htags.
Defined.

(** C2: whatever its outcome, every step makes at most one build-list edit
    and at most one external-tool invocation (the git operation
    [create_submodule] or a run of the build tool).
    The only edit of [create_submodule] adds the device support module name
    to SUPPDIRS in EPICS_SUPPORT, the only edit of
    [create_ioc_from_template] adds the IOC name to IOCDIRS in IOC_ROOT, and
    each makes its edit whenever it returns; the other four steps never
    call [add_to_makefile_list]. *)
Theorem build_list_edits_of_steps C h device :
  (at_most_one_edit_and_tool (calls (create_submodule C device) h)
   /\ at_most_one_edit_and_tool (calls (create_submodule_structure C device) h)
   /\ at_most_one_edit_and_tool (calls (create_ioc_from_template C device) h)
   /\ at_most_one_edit_and_tool (calls (add_test_framework C device) h)
   /\ at_most_one_edit_and_tool (calls (add_lewis_emulator C device) h)
   /\ at_most_one_edit_and_tool (calls (add_opi_to_gui C device) h))
  /\ (edits (calls (create_submodule C device) h) = []
      \/ exists d name,
           h !! device = Some d
           /\ d !! p.DEVICE_SUPPORT_MODULE_NAME = Some name
           /\ edits (calls (create_submodule C device) h)
              = [(EPICS_SUPPORT, "SUPPDIRS"%string, name)])
  /\ (result (create_submodule C device) h = Ok tt ->
      length (edits (calls (create_submodule C device) h)) = 1%nat)
  /\ (edits (calls (create_ioc_from_template C device) h) = []
      \/ exists d name,
           h !! device = Some d
           /\ d !! p.IOC_NAME = Some name
           /\ edits (calls (create_ioc_from_template C device) h)
              = [(IOC_ROOT, "IOCDIRS"%string, name)])
  /\ (result (create_ioc_from_template C device) h = Ok tt ->
      length (edits (calls (create_ioc_from_template C device) h)) = 1%nat)
  /\ edits (calls (create_submodule_structure C device) h) = []
  /\ edits (calls (add_test_framework C device) h) = []
  /\ edits (calls (add_lewis_emulator C device) h) = []
  /\ edits (calls (add_opi_to_gui C device) h) = [].
Proof.
  assert (Hioc : forall pre suf,
             calls (create_ioc_from_template C device) h = pre ++ suf ->
             Forall (fun ev =>
                       template_event ["5_1"; "5_2"]%string EPICS device ev)
               pre ->
             edits (calls (create_ioc_from_template C device) h) = edits suf
             /\ tool_invocations (calls (create_ioc_from_template C device) h)
                = tool_invocations suf).
  { intros pre suf -> Hpre.
    rewrite edits_app, tool_invocations_app.
    erewrite edits_template, tool_invocations_template by exact Hpre.
    done. }
  unfold at_most_one_edit_and_tool.
  split; [split; [|split; [|split; [|split; [|split]]]]|].
  - exec_goal; split; lia.
  - exec_goal; split; lia.
  - destruct (create_ioc_from_template_shape C h device)
      as (pre & suf & Ht & Hpre & Hsuf).
    destruct (Hioc pre suf Ht Hpre) as [-> ->].
    destruct Hsuf as [->|(d & entry & _ & _ & [->|(cwd & _ & ->)])];
      cbn; lia.
  - exec_goal; split; lia.
  - exec_goal; split; lia.
  - exec_goal; split; lia.
  - split; [|split; [|split; [|split]]].
    + exec_goal; simplify_eq; try (by left); right; by eexists _, _.
    + exec_goal; done.
    + destruct (create_ioc_from_template_shape C h device)
        as (pre & suf & Ht & Hpre & Hsuf).
      destruct (Hioc pre suf Ht Hpre) as [-> _].
      destruct Hsuf as [->|(d & entry & ? & ? & [->|(cwd & _ & ->)])];
        [by left|right; by exists d, entry..].
    + unfold result, calls, run.
      destruct (create_ioc_from_template C device (mkWorld h []))
        as [r w'] eqn:H.
      cbn [fst snd]. intros ->.
      apply create_ioc_from_template_outcome in H
        as [(e & pre & suf & ? & _)
           |(d & count & stop & entry & cwd & _ & _ & _ & _ & _ & Ht & _)];
        [done|].
      cbn [trace app] in Ht. rewrite Ht. unfold ioc_script, ioc_before_make.
      rewrite !edits_app.
      erewrite (edits_template _ _ _ (loop_events _ _ _))
        by (apply loop_events_template with (tags := ["5_2"%string]);
            by left).
      done.
    + split; [by exec_goal|]. split; [by exec_goal|].
      split; by exec_goal.
Qed.

Lemma build_list_edits_of_steps_witness :
  length (edits (calls (create_submodule quiet 1%positive)
                   {[ 1%positive := demo_device 1 ]})) = 1%nat
  /\ length (edits (calls (create_ioc_from_template quiet 1%positive)
                      {[ 1%positive := demo_device 1 ]})) = 1%nat.
Proof.
  destruct (build_list_edits_of_steps quiet {[ 1%positive := demo_device 1 ]}
              1%positive) as (_ & _ & Hsub & _ & Hioc & _).
  split; [apply Hsub|apply Hioc]; vm_compute; reflexivity.
Defined.

(** *** The build tool runs last *)

Lemma run_command_is_last l x pre y post :
  l ++ [x] = pre ++ y :: post ->
  is_run_command y ->
  Forall (fun e => is_run_command e = false) l ->
  pre = l /\ y = x /\ post = [].
Proof.
  revert pre. induction l as [|e l IH]; intros pre Heq Hy Hl.
  - destruct pre as [|e' pre]; cbn in Heq; simplify_eq; [done|].
    by destruct pre.
  - apply Forall_cons in Hl as [He Hl].
    destruct pre as [|e' pre]; cbn in Heq; simplify_eq.
    + by rewrite He in Hy.
    + destruct (IH pre) as (-> & -> & ->); done.
Qed.

Lemma no_run_command l pre y post :
  l = pre ++ y :: post ->
  is_run_command y ->
  Forall (fun e => is_run_command e = false) l ->
  False.
Proof.
  intros -> Hy Hl. apply Forall_app in Hl as [_ Hl].
  apply Forall_cons in Hl as [He _]. by rewrite He in Hy.
Qed.

Lemma template_event_not_run_command tags root device t :
  Forall (fun ev => template_event tags root device ev) t ->
  Forall (fun e => is_run_command e = false) t.
Proof. intros H. eapply Forall_impl; [exact H|]. by intros []. Qed.

(** C3: in [create_submodule_structure] and in [create_ioc_from_template]
    a call of the build tool is the last call of the step, its command is
    [make], every call before it returned, and the calls before it hold
    every template population of the step: the one of template "4", or
    the one of template "5_1" and all those of the loop.  A template
    population adds no call of its own but the population itself, and the
    other four steps never call the build tool. *)
Theorem make_runs_after_populations C h device :
  (forall pre argv cwd post,
      calls (create_submodule_structure C device) h
      = pre ++ run_command_call argv cwd :: post ->
      argv = ["make"%string] /\ post = []
      /\ all_returned C [] pre
      /\ exists d,
          h !! device = Some d
          /\ populations pre = [(TemplateDir "4", EPICS, device, d)])
  /\ (forall pre argv cwd post,
        calls (create_ioc_from_template C device) h
        = pre ++ run_command_call argv cwd :: post ->
        argv = ["make"%string] /\ post = []
        /\ all_returned C [] pre
        /\ exists d count stop,
            h !! device = Some d
            /\ d !! p.DEVICE_COUNT = Some count
            /\ plus_one count = Some stop
            /\ populations pre
               = (TemplateDir "5_1", EPICS, device, d)
                 :: map (fun i => (TemplateDir "5_2", EPICS, device,
                                   <[p.INDEX := VStr (format_02d i)]> d))
                      (range 2 stop))
  /\ (forall template root subs w,
        let w' := (populate_template_dir C template root subs w).2 in
        trace w' = trace w
        \/ exists seen,
             trace w'
             = trace w ++ [populate_template_dir_call template root subs seen])
  /\ Forall (fun e => is_run_command e = false)
       (calls (create_submodule C device) h)
  /\ Forall (fun e => is_run_command e = false)
       (calls (add_test_framework C device) h)
  /\ Forall (fun e => is_run_command e = false)
       (calls (add_lewis_emulator C device) h)
  /\ Forall (fun e => is_run_command e = false)
       (calls (add_opi_to_gui C device) h).
Proof.
  split; [|split; [|split]].
  - intros pre argv cwd post.
    exec_goal; intros Heq; simplify_eq;
      try (exfalso; eapply no_run_command;
           [exact Heq|done|by repeat constructor]);
      (apply (run_command_is_last [_; _]) in Heq as (-> & ? & ->);
       [|done|by repeat constructor]);
      simplify_eq; (split; [done|]); (split; [done|]); (split; [by cbn|]);
      by eexists.
  - intros pre argv cwd post. unfold calls, run.
    destruct (create_ioc_from_template C device (mkWorld h []))
      as [r w'] eqn:H.
    apply create_ioc_from_template_outcome in H
      as [(e & pre' & suf & _ & Ht & Hpre & Hsuf & _)
         |(d & count & stop & entry & cwd' & Hd & Hc & Hs & _ & _ & Ht & _
           & Hret & _)];
      cbn [trace heap app snd] in *; rewrite Ht; intros Heq.
    + exfalso. eapply no_run_command; [exact Heq|done|].
      apply Forall_app_2;
        [by eapply template_event_not_run_command|].
      destruct Hsuf as [->|(d & entry & _ & _ & ->)]; by repeat constructor.
    + unfold ioc_script in Heq.
      apply run_command_is_last in Heq as (-> & ? & ->); [|done|].
      * simplify_eq. split; [done|]. split; [done|]. split; [done|].
        exists d, count, stop. do 3 (split; [done|]).
        unfold ioc_before_make. rewrite !populations_app.
        rewrite populations_loop_events. cbn. by rewrite app_nil_r.
      * unfold ioc_before_make. apply Forall_app_2; [by repeat constructor|].
        apply Forall_app_2; [|by repeat constructor].
        eapply template_event_not_run_command.
        apply loop_events_template with (tags := ["5_2"%string]). by left.
  - intros template root subs w. unfold populate_template_dir, call. cbn.
    destruct (heap w !! subs) as [seen|]; [|by left].
    right. exists seen. by destruct (raises C _ _).
  - split; [exec_goal; by repeat constructor|].
    split; [exec_goal; by repeat constructor|].
    split; exec_goal; by repeat constructor.
Qed.

Lemma make_runs_after_populations_witness :
  all_returned quiet []
    [ get_template_call "4";
      populate_template_dir_call (TemplateDir "4") EPICS 1%positive
        (demo_device 1) ].
Proof.
  destruct (make_runs_after_populations quiet
              {[ 1%positive := demo_device 1 ]} 1%positive) as [Hmake _].
  apply (Hmake _ ["make"%string] (VStr "support/chopper/master") []).
  vm_compute. reflexivity.
Defined.

(** *** Exceptions are handed on *)

Lemma fail_stop_ret {A : Type} C (a : A) : fail_stop C (mret a).
Proof.
  intros w r w' H. unfold mret, M_ret in H. simplify_eq.
  exists []. by rewrite app_nil_r.
Qed.

Lemma fail_stop_raise {A : Type} C x : fail_stop C (@raise A x).
Proof.
  intros w r w' H. unfold raise in H. simplify_eq.
  exists []. rewrite app_nil_r. split; [done|]. by left.
Qed.

Lemma fail_stop_call C e : fail_stop C (call C e).
Proof.
  intros w r w' H. unfold call in H.
  destruct (raises C (trace w) e) as [x|] eqn:R; simplify_eq;
    exists [e]; (split; [done|]); cbn.
  - right. exists [], e. rewrite app_nil_r. done.
  - done.
Qed.

Lemma fail_stop_getitem C device key : fail_stop C (getitem device key).
Proof.
  intros w r w' H. unfold getitem in H. exists [].
  repeat case_match; simplify_eq; rewrite app_nil_r; (split; [done|]); cbn;
    auto.
Qed.

Lemma fail_stop_setitem C device key v : fail_stop C (setitem device key v).
Proof.
  intros w r w' H. unfold setitem in H. exists [].
  repeat case_match; simplify_eq; cbn; rewrite app_nil_r; (split; [done|]);
    cbn; auto.
Qed.

Lemma fail_stop_bind {A B : Type} C (m : M A) (f : A -> M B) :
  fail_stop C m -> (forall a, fail_stop C (f a)) -> fail_stop C (m ≫= f).
Proof.
  intros Hm Hf w r w' H. unfold mbind, M_bind in H.
  destruct (m w) as [[a|x] w1] eqn:E1.
  - apply Hm in E1 as (t1 & Ht1 & Hp1). cbn in Hp1.
    apply Hf in H as (t2 & Ht2 & Hp2).
    exists (t1 ++ t2). split; [by rewrite Ht2, Ht1, app_assoc|].
    rewrite Ht1 in Hp2. destruct r as [b|x]; cbn in *.
    + by apply all_returned_app.
    + destruct Hp2 as [Hp2|(t0 & e & -> & Hp2 & Hr)].
      * left. by apply all_returned_app.
      * right. exists (t1 ++ t0), e. rewrite !app_assoc.
        split; [done|]. split; [by apply all_returned_app|done].
  - simplify_eq. apply Hm in E1 as (t1 & Ht1 & Hp1). by exists t1.
Qed.

Lemma fail_stop_for_each {A : Type} C (l : list A) (body : A -> M unit) :
  (forall x, fail_stop C (body x)) -> fail_stop C (for_each l body).
Proof.
  intros Hbody. induction l as [|x l IH]; cbn [for_each].
  - apply fail_stop_ret.
  - apply fail_stop_bind; [apply Hbody|intros _; apply IH].
Qed.

Lemma fail_stop_populate_template_dir C template root subs :
  fail_stop C (populate_template_dir C template root subs).
Proof.
  intros w r w' H. unfold populate_template_dir in H.
  destruct (heap w !! subs) as [d|]; [by apply fail_stop_call in H|].
  simplify_eq. exists []. rewrite app_nil_r. split; [done|]. by left.
Qed.

Lemma fail_stop_add_device_opi_to_opi_info C device :
  fail_stop C (add_device_opi_to_opi_info C device).
Proof.
  intros w r w' H. unfold add_device_opi_to_opi_info in H.
  destruct (heap w !! device) as [d|]; [by apply fail_stop_call in H|].
  simplify_eq. exists []. rewrite app_nil_r. split; [done|]. by left.
Qed.

Lemma fail_stop_add_one C v : fail_stop C (add_one v).
Proof.
  unfold add_one. destruct (plus_one v);
    [apply fail_stop_ret|apply fail_stop_raise].
Qed.

Ltac fail_stop_steps :=
  repeat first
    [ apply fail_stop_bind; [|intros ?]
    | apply fail_stop_ret
    | apply fail_stop_call
    | apply fail_stop_getitem
    | apply fail_stop_setitem
    | apply fail_stop_add_one
    | apply fail_stop_populate_template_dir
    | apply fail_stop_add_device_opi_to_opi_info
    | apply fail_stop_for_each; intros ? ].

(** X8: no step swallows an exception or goes on after one.  Whatever the
    collaborators do, the calls of a step that returned all returned; the
    calls of a step that raised all returned but possibly the last, and
    when the last call raised, the step raised that same exception. *)
Theorem steps_hand_exceptions_on C h device :
  Forall (fun step => propagates C [] (calls (step device) h)
                        (result (step device) h))
    (all_steps C).
Proof.
  assert (Hrun : forall m : M unit,
             fail_stop C m -> propagates C [] (calls m h) (result m h)).
  { intros m Hm. unfold calls, result, run.
    destruct (m (mkWorld h [])) as [r w'] eqn:E.
    apply Hm in E as (t & Ht & Hp). cbn in *. by rewrite Ht. }
  unfold all_steps.
  repeat (apply List.Forall_cons; [apply Hrun|]); [..|apply List.Forall_nil];
    unfold create_submodule, create_submodule_structure,
      create_ioc_from_template, create_ioc_loop_body, add_test_framework,
      add_lewis_emulator, add_opi_to_gui, RepoWrapper,
      create_submodule_method, github_repo_url, get_template,
      add_to_makefile_list, run_command;
    fail_stop_steps.
Qed.

(** *** Sequences of steps *)

Lemma index_frame_refl device h : index_frame device h h.
Proof. by left. Qed.

Lemma index_frame_trans device h1 h2 h3 :
  index_frame device h1 h2 -> index_frame device h2 h3 ->
  index_frame device h1 h3.
Proof.
  intros [->|(d & d' & Hd & -> & Hs)] [->|(e & e' & He & -> & Hs')];
    [by left|right; by exists e, e'|right; by exists d, d'|].
  rewrite lookup_insert_eq in He. simplify_eq.
  right. exists d, e'. split; [done|]. split; [by rewrite insert_insert_eq|].
  intros k Hk. by rewrite Hs', Hs.
Qed.

(** Each step, run from any world, leaves the store as it was but for the
    [index] of its device. *)
Lemma step_index_frame C device step w r w' :
  step ∈ all_steps C ->
  step device w = (r, w') ->
  index_frame device (heap w) (heap w').
Proof.
  unfold all_steps. intros Hstep H.
  repeat (apply elem_of_cons in Hstep as [->|Hstep]);
    [..|by apply elem_of_nil in Hstep];
    try (left; exec_in H; done).
  apply create_ioc_from_template_outcome in H
    as [(e & pre & suf & _ & _ & _ & _ & Hf)
       |(d & count & stop & entry & cwd & Hd & _ & _ & _ & _ & _ & Hh & _)];
    [done|].
  right. exists d, (after_loop d (range 2 stop)).
  split; [done|]. split; [done|]. apply same_but_index_after_loop.
Qed.

(** X7: however many steps are run on a device, in whatever order and
    with whatever outcome, the store ends as it began but for the [index]
    key of that device: no sequence of steps writes any other key, adds or
    removes an object. *)
Theorem steps_in_sequence_write_only_index C h device steps :
  Forall (fun step => step ∈ all_steps C) steps ->
  index_frame device h
    (store_after (for_each steps (fun step => step device)) h).
Proof.
  intros Hsteps. unfold store_after, run.
  assert (forall w r w',
             for_each steps (fun step => step device) w = (r, w') ->
             index_frame device (heap w) (heap w')) as Hall.
  { induction Hsteps as [|step steps Hstep _ IH]; intros w r w' H.
    - cbn in H. unfold mret, M_ret in H. simplify_eq. apply index_frame_refl.
    - cbn [for_each] in H. unfold mbind, M_bind in H.
      destruct (step device w) as [[[]|e] w1] eqn:E1.
      + eapply index_frame_trans; [by eapply step_index_frame|by eapply IH].
      + simplify_eq. by eapply step_index_frame. }
  destruct (for_each steps _ _) as [r w'] eqn:E.
  by apply Hall in E.
Qed.

Lemma steps_in_sequence_write_only_index_witness :
  Forall (fun step => step ∈ all_steps quiet)
    [create_ioc_from_template quiet; create_submodule quiet;
     create_ioc_from_template quiet]
  /\ index_frame 1%positive {[ 1%positive := demo_device 3 ]}
       (store_after
          (for_each
             [create_ioc_from_template quiet; create_submodule quiet;
              create_ioc_from_template quiet]
             (fun step => step 1%positive))
          {[ 1%positive := demo_device 3 ]}).
Proof.
  assert (Hsteps : Forall (fun step => step ∈ all_steps quiet)
                     [create_ioc_from_template quiet; create_submodule quiet;
                      create_ioc_from_template quiet]).
  { unfold all_steps. repeat constructor. }
  split; [exact Hsteps|].
  apply (steps_in_sequence_write_only_index quiet
           {[ 1%positive := demo_device 3 ]} 1%positive _ Hsteps).
Defined.

(** *** Edge cases of the IOC population *)

Lemma range_nil lo hi : hi <= lo -> range lo hi = [].
Proof.
  intros H. unfold range. by replace (Z.to_nat (hi - lo)) with 0%nat by lia.
Qed.

(** X4: a device count of one or less (zero and negative counts
    included) makes [create_ioc_from_template] behave as for a single
    device: a run that returns has made the one population of template
    "5_1", the build-list edit and the build, in this order, and has not
    touched the device, [index] included. *)
Theorem create_ioc_from_template_single C h device d N w' :
  h !! device = Some d ->
  d !! p.DEVICE_COUNT = Some (VInt N) ->
  N <= 1 ->
  run (create_ioc_from_template C device) h = (Ok tt, w') ->
  heap w' = h
  /\ exists entry cwd,
       d !! p.IOC_NAME = Some entry /\ d !! p.IOC_PATH = Some cwd
       /\ trace w'
          = [ get_template_call "5_1";
              populate_template_dir_call (TemplateDir "5_1") EPICS device d;
              add_to_makefile_list_call IOC_ROOT "IOCDIRS" entry;
              run_command_call ["make"%string] cwd ].
Proof.
  intros Hd Hcount HN H. unfold run in H.
  apply create_ioc_from_template_outcome in H
    as [(e & pre & suf & ? & _)
       |(d0 & count & stop & entry & cwd & Hd0 & Hc & Hs & He & Hp & Ht & Hh
         & _)]; [done|].
  cbn [trace heap app] in *. simplify_eq. cbn in Hs. simplify_eq.
  unfold ioc_script, ioc_before_make in Ht.
  rewrite range_nil in Hh, Ht by lia. cbn in Ht. split.
  - rewrite Hh. by apply insert_id.
  - by exists entry, cwd.
Qed.

Lemma create_ioc_from_template_single_witness :
  heap (run (create_ioc_from_template quiet 1%positive)
          {[ 1%positive := demo_device 0 ]}).2
  = {[ 1%positive := demo_device 0 ]}.
Proof.
  apply (create_ioc_from_template_single quiet
           {[ 1%positive := demo_device 0 ]} 1%positive (demo_device 0) 0);
    [reflexivity | reflexivity | lia | vm_compute; reflexivity].
Defined.

(** X5: the [index] a run leaves behind is what the next run starts from.
    After a run for N >= 2 devices returned, a second run of
    [create_ioc_from_template] on the same device that returns has handed
    the population of template "5_1", the primary app, a mapping in which
    [index] is ["{:02d}".format(N)]; its other populations are those of
    the first run. *)
Theorem create_ioc_from_template_again C h device d N w1 w2 :
  h !! device = Some d ->
  d !! p.DEVICE_COUNT = Some (VInt N) ->
  2 <= N ->
  run (create_ioc_from_template C device) h = (Ok tt, w1) ->
  create_ioc_from_template C device w1 = (Ok tt, w2) ->
  exists t,
    trace w2 = trace w1 ++ t
    /\ populations t
       = (TemplateDir "5_1", EPICS, device,
          <[p.INDEX := VStr (format_02d N)]> d)
         :: map (fun i => (TemplateDir "5_2", EPICS, device,
                           <[p.INDEX := VStr (format_02d i)]> d))
              (range 2 (N + 1))
    /\ heap w2 = heap w1.
Proof.
  intros Hd Hcount HN H1 H2. unfold run in H1.
  eapply create_ioc_from_template_ok in H1; [|cbn; eassumption].
  destruct H1 as (count & stop & entry & cwd & Hc & Hs & _ & Hh).
  cbn [heap] in Hh. simplify_eq. cbn in Hs. simplify_eq.
  assert (Hafter : after_loop d (range 2 (N + 1))
                   = <[p.INDEX := VStr (format_02d N)]> d).
  { unfold after_loop. rewrite last_range by lia.
    by replace (N + 1 - 1) with N by lia. }
  rewrite Hafter in Hh.
  eapply create_ioc_from_template_ok in H2;
    [|rewrite Hh; apply lookup_insert_eq].
  destruct H2 as (count & stop & entry' & cwd' & Hc & Hs & Ht & Hh2).
  rewrite lookup_insert_ne in Hc by done. simplify_eq. cbn in Hs. simplify_eq.
  eexists. split; [exact Ht|]. split.
  - rewrite populations_ioc_script. f_equal. apply map_ext. intros i.
    by rewrite insert_insert_eq.
  - rewrite Hh2. unfold after_loop. rewrite last_range by lia.
    rewrite !insert_insert_eq, Hh, insert_insert_eq.
    by replace (N + 1 - 1) with N by lia.
Qed.

Lemma create_ioc_from_template_again_witness :
  exists t,
    trace (create_ioc_from_template quiet 1%positive
             (run (create_ioc_from_template quiet 1%positive)
                {[ 1%positive := demo_device 2 ]}).2).2
    = trace (run (create_ioc_from_template quiet 1%positive)
               {[ 1%positive := demo_device 2 ]}).2 ++ t
    /\ head (populations t)
       = Some (TemplateDir "5_1", EPICS, 1%positive,
               <[p.INDEX := VStr "02"]> (demo_device 2)).
Proof.
  destruct (create_ioc_from_template_again quiet
              {[ 1%positive := demo_device 2 ]} 1%positive (demo_device 2) 2
              (run (create_ioc_from_template quiet 1%positive)
                 {[ 1%positive := demo_device 2 ]}).2
              (create_ioc_from_template quiet 1%positive
                 (run (create_ioc_from_template quiet 1%positive)
                    {[ 1%positive := demo_device 2 ]}).2).2)
    as (t & Ht & Hpop & _);
    [reflexivity | reflexivity | lia | vm_compute; reflexivity
    | vm_compute; reflexivity |].
  exists t. split; [exact Ht|]. by rewrite Hpop.
Defined.

(** *** The values of [index] *)

Lemma pretty_N_go_no_leading_zero x : forall s s',
  ((x = 0)%N -> s <> "0" +:+ s') -> pretty_N_go x s <> "0" +:+ s'.
Proof.
  induction (N.lt_wf_0 x) as [x _ IH]; intros s s' Hs.
  assert (x = 0 \/ 0 < x)%N as [->|Hx] by lia.
  - rewrite pretty_N_go_0. by apply Hs.
  - rewrite pretty_N_go_step by done. apply IH; [by apply N.div_lt|].
    intros Hdiv. apply N.div_small_iff in Hdiv; [|done].
    rewrite N.mod_small by done.
    assert (x = 1 \/ x = 2 \/ x = 3 \/ x = 4 \/ x = 5 \/ x = 6
            \/ x = 7 \/ x = 8 \/ x = 9)%N as Hcases by lia.
    repeat (destruct Hcases as [->|Hcases]; [done|]). by subst.
Qed.

Lemma pretty_no_leading_zero (j : Z) s' : 0 < j -> pretty j <> "0" +:+ s'.
Proof.
  intros Hj. destruct j as [|q|q]; [lia| |lia].
  unfold pretty, pretty_Z, pretty, pretty_positive, pretty, pretty_N.
  case_decide; [done|]. by apply pretty_N_go_no_leading_zero.
Qed.

Lemma pretty_negative (j : Z) : j < 0 -> exists s, pretty j = "-" +:+ s.
Proof. intros Hj. destruct j as [|q|q]; [lia|lia|]. by eexists. Qed.

(** ["{:02d}".format] gives different numbers different strings. *)
Lemma format_02d_inj i j : format_02d i = format_02d j -> i = j.
Proof.
  unfold format_02d.
  destruct ((0 <=? i) && (i <? 10)) eqn:Ei;
    destruct ((0 <=? j) && (j <? 10)) eqn:Ej; intros H.
  - apply (inj pretty). by simplify_eq/=.
  - exfalso. assert (j < 0 \/ 0 < j) as [Hj|Hj] by lia.
    + destruct (pretty_negative j Hj) as [s Hs]. rewrite Hs in H. done.
    + by eapply pretty_no_leading_zero.
  - exfalso. assert (i < 0 \/ 0 < i) as [Hi|Hi] by lia.
    + destruct (pretty_negative i Hi) as [s Hs]. rewrite Hs in H. done.
    + by eapply pretty_no_leading_zero.
  - by apply (inj pretty).
Qed.

Lemma NoDup_range lo hi : NoDup (range lo hi).
Proof.
  unfold range. apply NoDup_fmap_2; [|apply NoDup_seq].
  intros x y. lia.
Qed.

(** X6: no two apps get the same [index].  ["{:02d}".format] is one-to-one
    on the integers, so in a run of [create_ioc_from_template] that returns,
    on a device that came without [index], the mappings handed to the
    populations differ pairwise in their [index]: none for the primary
    app, a different string for each duplicate, for every device count. *)
Theorem create_ioc_from_template_distinct_indices C h device d w' :
  h !! device = Some d ->
  d !! p.INDEX = None ->
  run (create_ioc_from_template C device) h = (Ok tt, w') ->
  NoDup (map (fun x => x.2 !! p.INDEX) (populations (trace w'))).
Proof.
  intros Hd Hindex H. unfold run in H.
  eapply create_ioc_from_template_ok in H; [|cbn; eassumption].
  destruct H as (count & stop & entry & cwd & _ & _ & Ht & _).
  cbn [trace app] in Ht. rewrite Ht, populations_ioc_script. cbn.
  rewrite Hindex, map_map. cbn. apply NoDup_cons. split.
  - intros Hin. apply list_elem_of_fmap in Hin as (i & Hi & _).
    by rewrite lookup_insert_eq in Hi.
  - apply NoDup_fmap_2; [|apply NoDup_range].
    intros i j Hij. rewrite !lookup_insert_eq in Hij. simplify_eq.
    by apply format_02d_inj.
Qed.

Lemma create_ioc_from_template_distinct_indices_witness :
  NoDup
    (map (fun x => x.2 !! p.INDEX)
       (populations
          (trace (run (create_ioc_from_template quiet 1%positive)
                    {[ 1%positive := demo_device 3 ]}).2))).
Proof.
  apply (create_ioc_from_template_distinct_indices quiet
           {[ 1%positive := demo_device 3 ]} 1%positive (demo_device 3));
    [reflexivity | reflexivity | vm_compute; reflexivity].
Defined.

(** *** The submodule step *)

(** X1: in [create_submodule] the module registered in the build list is
    the module created.  Whenever the step edits the build list, the entry
    added to SUPPDIRS is the name the git operation was given, the
    operation was given the URL of the repository name and the support
    path of the device, the edit is the last call of the step, and the
    git operation and the population of template "3" have returned before
    it. *)
Theorem create_submodule_registers_created_module C h device edit :
  edit ∈ edits (calls (create_submodule C device) h) ->
  exists d name repo_name path,
    h !! device = Some d
    /\ d !! p.DEVICE_SUPPORT_MODULE_NAME = Some name
    /\ d !! p.GITHUB_REPO_NAME = Some repo_name
    /\ d !! p.SUPPORT_MASTER_PATH = Some path
    /\ edit = (EPICS_SUPPORT, "SUPPDIRS"%string, name)
    /\ calls (create_submodule C device) h
       = [ RepoWrapper_init EPICS;
           github_repo_url_call repo_name;
           RepoWrapper_create_submodule EPICS name (repo_url C repo_name)
             path;
           get_template_call "3";
           populate_template_dir_call (TemplateDir "3") EPICS device d;
           add_to_makefile_list_call EPICS_SUPPORT "SUPPDIRS" name ]
    /\ all_returned C []
         [ RepoWrapper_init EPICS;
           github_repo_url_call repo_name;
           RepoWrapper_create_submodule EPICS name (repo_url C repo_name)
             path;
           get_template_call "3";
           populate_template_dir_call (TemplateDir "3") EPICS device d ].
Proof.
  exec_goal; intros Hin; simplify_eq;
    try (by apply elem_of_nil in Hin);
    apply list_elem_of_singleton in Hin; subst;
    eexists _, _, _, _; repeat (split; [done|]); cbn; done.
Qed.

Lemma create_submodule_registers_created_module_witness :
  exists d name,
    ({[ 1%positive := demo_device 1 ]} : gmap ref (gmap string value))
      !! 1%positive = Some d
    /\ d !! p.DEVICE_SUPPORT_MODULE_NAME = Some name
    /\ name = VStr "chopper".
Proof.
  destruct (create_submodule_registers_created_module quiet
              {[ 1%positive := demo_device 1 ]} 1%positive
              (EPICS_SUPPORT, "SUPPDIRS"%string, VStr "chopper"))
    as (d & name & _ & _ & Hd & Hname & _ & _ & Hedit & _);
    [vm_compute; left|].
  exists d, name. split; [exact Hd|]. split; [exact Hname|]. congruence.
Defined.

(** X9: [create_submodule] evaluates the three keys it needs before the
    git operation.  When the device lacks the support module name, the
    repository name or the support path, the step raises without having
    created a submodule, populated a template or edited the build
    list. *)
Theorem create_submodule_missing_key C h device d :
  h !! device = Some d ->
  d !! p.DEVICE_SUPPORT_MODULE_NAME = None
  \/ d !! p.GITHUB_REPO_NAME = None
  \/ d !! p.SUPPORT_MASTER_PATH = None ->
  (exists x, result (create_submodule C device) h = Err x)
  /\ tool_invocations (calls (create_submodule C device) h) = []
  /\ populations (calls (create_submodule C device) h) = []
  /\ edits (calls (create_submodule C device) h) = [].
Proof.
  intros Hd Hmiss. revert Hd.
  exec_goal; intros; simplify_eq;
    try (split; [by eexists|done]);
    destruct Hmiss as [?|[?|?]]; congruence.
Qed.

Lemma create_submodule_missing_key_witness :
  tool_invocations
    (calls (create_submodule quiet 1%positive)
       {[ 1%positive := delete p.GITHUB_REPO_NAME (demo_device 1) ]})
  = []
  /\ edits
       (calls (create_submodule quiet 1%positive)
          {[ 1%positive := delete p.GITHUB_REPO_NAME (demo_device 1) ]})
     = [].
Proof.
  destruct (create_submodule_missing_key quiet
              {[ 1%positive := delete p.GITHUB_REPO_NAME (demo_device 1) ]}
              1%positive (delete p.GITHUB_REPO_NAME (demo_device 1)))
    as (_ & Htools & _ & Hedits);
    [reflexivity | right; left; reflexivity |].
  split; [exact Htools|exact Hedits].
Defined.

(** *** Keys read after the population *)

(** X3: [create_submodule_structure] and [create_ioc_from_template]
    populate before they read.  On a device without the support path, or
    without a device count, or with a count that is [None] or a string,
    the template ("4", or "5_1") is resolved and populated first (when
    these two calls return) and only then the step raises [KeyError] or
    [TypeError]: nothing is built, the build list is not edited and the
    device is as it was. *)
Theorem steps_populate_before_reading C h device d :
  h !! device = Some d ->
  (d !! p.SUPPORT_MASTER_PATH = None ->
   raises C [] (get_template_call "4") = None ->
   raises C [get_template_call "4"]
     (populate_template_dir_call (TemplateDir "4") EPICS device d) = None ->
   run (create_submodule_structure C device) h
   = (Err (KeyError p.SUPPORT_MASTER_PATH),
      mkWorld h
        [ get_template_call "4";
          populate_template_dir_call (TemplateDir "4") EPICS device d ]))
  /\ (raises C [] (get_template_call "5_1") = None ->
      raises C [get_template_call "5_1"]
        (populate_template_dir_call (TemplateDir "5_1") EPICS device d)
      = None ->
      (d !! p.DEVICE_COUNT = None ->
       run (create_ioc_from_template C device) h
       = (Err (KeyError p.DEVICE_COUNT),
          mkWorld h
            [ get_template_call "5_1";
              populate_template_dir_call (TemplateDir "5_1") EPICS device
                d ]))
      /\ (d !! p.DEVICE_COUNT = Some VNone
          \/ (exists s, d !! p.DEVICE_COUNT = Some (VStr s)) ->
          run (create_ioc_from_template C device) h
          = (Err TypeError,
             mkWorld h
               [ get_template_call "5_1";
                 populate_template_dir_call (TemplateDir "5_1") EPICS device
                   d ]))).
Proof.
  intros Hd. split.
  - intros Hpath R1 R2. unfold run. unfold_steps. cbn.
    rewrite R1. cbn. rewrite Hd, R2. cbn. by rewrite Hd, Hpath.
  - intros R1 R2.
    assert (Hstart : forall count,
               d !! p.DEVICE_COUNT = count ->
               run (create_ioc_from_template C device) h
               = match count with
                 | None =>
                     (Err (KeyError p.DEVICE_COUNT),
                      mkWorld h
                        [ get_template_call "5_1";
                          populate_template_dir_call (TemplateDir "5_1")
                            EPICS device d ])
                 | Some v =>
                     match plus_one v with
                     | None =>
                         (Err TypeError,
                          mkWorld h
                            [ get_template_call "5_1";
                              populate_template_dir_call (TemplateDir "5_1")
                                EPICS device d ])
                     | Some _ => run (create_ioc_from_template C device) h
                     end
                 end).
    { intros count Ecount.
      destruct count as [v|]; [destruct (plus_one v) eqn:Eplus; [done|]|];
        unfold run, create_ioc_from_template, mbind, M_bind;
        unfold get_template at 1, populate_template_dir at 1, call, mbind,
          M_bind, mret, M_ret; cbn; rewrite R1; cbn; rewrite Hd, R2; cbn;
        unfold getitem at 1; cbn; rewrite Hd, Ecount; [|done].
      unfold add_one. by rewrite Eplus. }
    split.
    + intros Hc. by rewrite (Hstart _ Hc) at 1.
    + intros [Hc|[s Hc]]; by rewrite (Hstart _ Hc) at 1.
Qed.

Lemma steps_populate_before_reading_witness :
  run (create_ioc_from_template quiet 1%positive)
    {[ 1%positive := <[p.DEVICE_COUNT := VStr "3"]> (demo_device 3) ]}
  = (Err TypeError,
     mkWorld
       {[ 1%positive := <[p.DEVICE_COUNT := VStr "3"]> (demo_device 3) ]}
       [ get_template_call "5_1";
         populate_template_dir_call (TemplateDir "5_1") EPICS 1%positive
           (<[p.DEVICE_COUNT := VStr "3"]> (demo_device 3)) ]).
Proof.
  destruct (steps_populate_before_reading quiet
              {[ 1%positive := <[p.DEVICE_COUNT := VStr "3"]> (demo_device 3) ]}
              1%positive (<[p.DEVICE_COUNT := VStr "3"]> (demo_device 3)))
    as [_ Hioc]; [reflexivity|].
  destruct Hioc as [_ Htype]; [reflexivity | reflexivity |].
  apply Htype. right. exists "3"%string. reflexivity.
Defined.

(** *** The build-list edit comes after the populations *)

(** The stages of [create_ioc_from_template]: either it stops among the
    template calls, or it reaches the build-list edit with every template
    call made and returned. *)
Lemma create_ioc_from_template_stages C device w r w' :
  create_ioc_from_template C device w = (r, w') ->
  (exists t,
      trace w' = trace w ++ t
      /\ Forall (fun ev => template_event ["5_1"; "5_2"]%string EPICS device ev)
           t)
  \/ (exists d count stop entry rest,
        heap w !! device = Some d
        /\ d !! p.DEVICE_COUNT = Some count
        /\ plus_one count = Some stop
        /\ d !! p.IOC_NAME = Some entry
        /\ trace w' = trace w ++ ioc_before_make device d stop entry ++ rest
        /\ (rest = []
            \/ exists cwd, d !! p.IOC_PATH = Some cwd
                           /\ rest = [run_command_call ["make"%string] cwd])
        /\ all_returned C (trace w)
             ([ get_template_call "5_1";
                populate_template_dir_call (TemplateDir "5_1") EPICS device
                  d ]
              ++ loop_events device d (range 2 stop))).
Proof.
  intros H. unfold create_ioc_from_template in H.
  unfold mbind, M_bind in H.
  destruct (get_template C "5_1" w) as [[t1|e1] w1] eqn:E1.
  2:{ exec_in E1. left. exists [get_template_call "5_1"].
      split; [done|template_events]. }
  exec_in E1.
  destruct (populate_template_dir C _ EPICS device _) as [[[]|e2] w2] eqn:E2.
  2:{ exec_in E2; left.
      - eexists [_; _]. cbn. rewrite <- app_assoc.
        split; [reflexivity|template_events].
      - eexists [_]. split; [reflexivity|template_events]. }
  exec_in E2. rename g into d.
  assert (Hpre : Forall
            (fun ev => template_event ["5_1"; "5_2"]%string EPICS device ev)
            [get_template_call "5_1";
             populate_template_dir_call (TemplateDir "5_1") EPICS device d])
    by template_events.
  rewrite <- app_assoc in H. cbn [app] in H.
  erewrite getitem_eq in H by (cbn; eassumption).
  destruct (d !! p.DEVICE_COUNT) as [count|] eqn:Ecount.
  2:{ simplify_eq. left. by eexists. }
  destruct (add_one count _) as [[stop|e4] w4] eqn:E4.
  2:{ exec_in E4. left. by eexists. }
  exec_in E4. rename Heqo2 into Estop.
  destruct (for_each (range 2 stop) _ _) as [[[]|e5] w5] eqn:E5.
  2:{ simplify_eq.
      eapply for_each_body_any in E5; [|cbn; eassumption].
      cbn in E5. destruct E5 as (t & d' & Ht & Hf & Hh & Hs).
      left. exists ([get_template_call "5_1";
                     populate_template_dir_call (TemplateDir "5_1") EPICS
                       device d] ++ t).
      split; [rewrite Ht, <- app_assoc; reflexivity|].
      apply Forall_app_2; [done|].
      eapply Forall_impl; [exact Hf|]. cbn. intros ev.
      apply template_event_weaken. intros tag Htag. by right. }
  eapply for_each_body_ok in E5; [|cbn; eassumption].
  cbn in E5. destruct E5 as (Ht & Hh & Hr).
  erewrite getitem_eq in H by (rewrite Hh; apply lookup_insert_eq).
  rewrite lookup_after_loop in H by done.
  rewrite <- app_assoc in Ht.
  destruct (d !! p.IOC_NAME) as [entry|] eqn:Eentry.
  2:{ simplify_eq. left. eexists. split; [exact Ht|].
      apply Forall_app_2; [done|]. apply loop_events_template.
      by right; left. }
  assert (Hret : all_returned C (trace w)
                   ([get_template_call "5_1";
                     populate_template_dir_call (TemplateDir "5_1") EPICS
                       device d]
                    ++ loop_events device d (range 2 stop))).
  { apply all_returned_app. split; [by cbn|exact Hr]. }
  right. exists d, count, stop, entry.
  assert (Hbefore : trace w5
                    ++ [add_to_makefile_list_call IOC_ROOT "IOCDIRS" entry]
                    = trace w ++ ioc_before_make device d stop entry).
  { unfold ioc_before_make. rewrite Ht, <- !app_assoc. reflexivity. }
  destruct (add_to_makefile_list C _ _ _ _) as [[[]|e6] w6] eqn:E6.
  2:{ exec_in E6. exists []. cbn [trace]. rewrite app_nil_r.
      do 4 (split; [done|]). split; [done|]. split; [by left|done]. }
  exec_in E6.
  erewrite getitem_eq in H by (cbn; rewrite Hh; apply lookup_insert_eq).
  rewrite lookup_after_loop in H by done.
  destruct (d !! p.IOC_PATH) as [cwd|] eqn:Ecwd.
  2:{ simplify_eq. exists []. cbn [trace]. rewrite app_nil_r.
      do 4 (split; [done|]). split; [done|]. split; [by left|done]. }
  exists [run_command_call ["make"%string] cwd].
  do 4 (split; [done|]). split; [|split; [right; by exists cwd|done]].
  unfold run_command, call in H. cbn [trace heap] in H.
  rewrite app_assoc, <- Hbefore.
  by destruct (raises C _ (run_command_call _ _)); simplify_eq.
Qed.

(** X2: [create_ioc_from_template] registers the IOC only when every app
    is in place.  Whenever the step edits the build list, whatever its
    outcome, the entry added to IOCDIRS is the IOC name of the device, and
    before the edit template "5_1" and then template "5_2" for every i
    of 2..N have been resolved and populated, each of these calls having
    returned; after the edit comes at most the build. *)
Theorem create_ioc_from_template_registers_last C h device edit :
  edit ∈ edits (calls (create_ioc_from_template C device) h) ->
  exists d count stop entry rest,
    h !! device = Some d
    /\ d !! p.DEVICE_COUNT = Some count
    /\ plus_one count = Some stop
    /\ d !! p.IOC_NAME = Some entry
    /\ edit = (IOC_ROOT, "IOCDIRS"%string, entry)
    /\ calls (create_ioc_from_template C device) h
       = ([ get_template_call "5_1";
            populate_template_dir_call (TemplateDir "5_1") EPICS device d ]
          ++ loop_events device d (range 2 stop))
         ++ add_to_makefile_list_call IOC_ROOT "IOCDIRS" entry :: rest
    /\ (rest = []
        \/ exists cwd, rest = [run_command_call ["make"%string] cwd])
    /\ all_returned C []
         ([ get_template_call "5_1";
            populate_template_dir_call (TemplateDir "5_1") EPICS device d ]
          ++ loop_events device d (range 2 stop)).
Proof.
  unfold calls, run.
  destruct (create_ioc_from_template C device (mkWorld h [])) as [r w'] eqn:H.
  apply create_ioc_from_template_stages in H
    as [(t & Ht & Hf)
       |(d & count & stop & entry & rest & Hd & Hc & Hs & He & Ht & Hrest
         & Hret)];
    cbn [trace heap app snd] in *; rewrite Ht; intros Hin.
  - erewrite edits_template in Hin by done. by apply elem_of_nil in Hin.
  - exists d, count, stop, entry, rest. do 4 (split; [done|]).
    assert (Hedits : edits (ioc_before_make device d stop entry ++ rest)
                     = [(IOC_ROOT, "IOCDIRS"%string, entry)]).
    { unfold ioc_before_make. rewrite !edits_app.
      erewrite (edits_template _ _ _ (loop_events _ _ _))
        by (apply loop_events_template with (tags := ["5_2"%string]);
            by left).
      by destruct Hrest as [->|(cwd & _ & ->)]. }
    rewrite Hedits in Hin. apply list_elem_of_singleton in Hin.
    split; [done|]. split.
    { unfold ioc_before_make. by rewrite <- !app_assoc. }
    split; [|done].
    destruct Hrest as [->|(cwd & _ & ->)]; [by left|right; by eexists].
Qed.

Lemma create_ioc_from_template_registers_last_witness :
  exists d entry,
    ({[ 1%positive := demo_device 2 ]} : gmap ref (gmap string value))
      !! 1%positive = Some d
    /\ d !! p.IOC_NAME = Some entry
    /\ entry = VStr "CHOP".
Proof.
  destruct (create_ioc_from_template_registers_last quiet
              {[ 1%positive := demo_device 2 ]} 1%positive
              (IOC_ROOT, "IOCDIRS"%string, VStr "CHOP"))
    as (d & count & stop & entry & rest & Hd & _ & _ & He & Hedit & _);
    [vm_compute; left|].
  exists d, entry. split; [exact Hd|]. split; [exact He|]. congruence.
Defined.

(** *** The OPI is registered after its files *)

(** X10: [add_opi_to_gui] adds the device to the OPI information only when
    its OPI is in place.  Whenever the step reaches
    [add_device_opi_to_opi_info], template "8" has been resolved and
    populated under the client sources, both calls have returned, the
    registration is the last call of the step and it is given the device
    object the population was given. *)
Theorem add_opi_to_gui_registers_populated_opi C h device dev seen :
  add_device_opi_to_opi_info_call dev seen
    ∈ calls (add_opi_to_gui C device) h ->
  dev = device
  /\ h !! device = Some seen
  /\ calls (add_opi_to_gui C device) h
     = [ get_template_call "8";
         populate_template_dir_call (TemplateDir "8") CLIENT_SRC device seen;
         add_device_opi_to_opi_info_call device seen ]
  /\ all_returned C []
       [ get_template_call "8";
         populate_template_dir_call (TemplateDir "8") CLIENT_SRC device
           seen ].
Proof.
  exec_goal; intros Hin; simplify_eq;
    repeat (apply elem_of_cons in Hin as [Hin|Hin]; [simplify_eq|]);
    try (by apply elem_of_nil in Hin);
    repeat (split; [done|]); cbn; done.
Qed.

Lemma add_opi_to_gui_registers_populated_opi_witness :
  ({[ 1%positive := demo_device 1 ]} : gmap ref (gmap string value))
    !! 1%positive = Some (demo_device 1)
  /\ all_returned quiet []
       [ get_template_call "8";
         populate_template_dir_call (TemplateDir "8") CLIENT_SRC 1%positive
           (demo_device 1) ].
Proof.
  destruct (add_opi_to_gui_registers_populated_opi quiet
              {[ 1%positive := demo_device 1 ]} 1%positive 1%positive
              (demo_device 1))
    as (_ & Hd & _ & Hret); [vm_compute; right; right; left|].
  split; [exact Hd|exact Hret].
Defined.

End StepProofs.

(** ** Proofs about the command line *)

Section ArgParserProofs.

Import arg_parser.

Variable is_valid_ioc_name : string -> bool.
Variable is_valid_device_name : string -> bool.
Variable is_valid_device_count : Z -> bool.
Variable does_github_issue_exist_and_is_open : Z -> bool.
Variable int : string -> option Z.

Abbreviation the_parser :=
  (parser is_valid_ioc_name is_valid_device_name is_valid_device_count
     does_github_issue_exist_and_is_open int).

Abbreviation the_parse_arguments :=
  (parse_arguments is_valid_ioc_name is_valid_device_name
     is_valid_device_count does_github_issue_exist_and_is_open int).

(** *** The checkers *)






(** *** The parser keeps its state sound *)





Section Sound.

Variable the_arguments : list Argument.










End Sound.

(** *** The parser of [parse_arguments] *)













Lemma classify_plain (l : list Argument) word :
  starts_with_dash word = false -> classify l word = positional_word.
Proof.
  destruct word as [|c rest]; [done|]. cbn. by intros ->.
Qed.








(** ** Further properties of the command line *)

(** *** Command lines without options *)

Lemma consume_extras (l : list Argument) words : forall ns sn ex,
  Forall (fun w => starts_with_dash w = false) words ->
  consume l words (mkState ns sn [] ex)
  = Ok (mkState ns sn [] (ex ++ words)).
Proof.
  induction words as [|w words IH]; intros ns sn ex Hw; cbn [consume].
  { by rewrite app_nil_r. }
  apply Forall_cons in Hw as [Hw Hws].
  rewrite classify_plain by done. cbn [positionals namespace seen extras].
  rewrite IH by done. by rewrite <- app_assoc.
Qed.

Lemma plain_words argv :
  Forall (fun w => starts_with_dash w = false) argv ->
  bool_decide ("--"%string ∈ argv) = false
  /\ existsb (fun w => is_ambiguous (classify the_parser w)) argv = false.
Proof.
  intros H. split.
  - apply bool_decide_eq_false. intros Hin.
    eapply Forall_forall in H; [|exact Hin]. done.
  - induction H as [|w argv Hw _ IH]; [done|].
    cbn. by rewrite classify_plain, IH.
Qed.

(** X11: a command line without a dash-led word is accepted exactly when
    it is an IOC name the validator accepts followed by a numeral of an
    open issue, and then every option has its default and the device is
    named after the IOC.  Any other such command line (no word, one word,
    more than two, a refused name, a ticket that is no numeral or that is
    closed or missing) ends in the exit status 2 of [parser.error], never
    in a traceback. *)
Theorem parse_arguments_positionals_only argv :
  Forall (fun w => starts_with_dash w = false) argv ->
  the_parse_arguments argv
  = match argv with
    | [ioc; ticket] =>
        match int ticket with
        | Some n =>
            if is_valid_ioc_name ioc && does_github_issue_exist_and_is_open n
            then Ok (minimal_namespace ioc n)
            else Err (SystemExit 2)
        | None => Err (SystemExit 2)
        end
    | _ => Err (SystemExit 2)
    end.
Proof.
  intros Hargv. destruct (plain_words argv Hargv) as [Hdd Hamb].
  unfold parse_arguments, parse_args. rewrite Hdd, Hamb.
  change (filter (fun a => option_strings a = []) the_parser)
    with [ mkArgument [] "ioc_name" store
             (as_type VStr (ioc_name_checker is_valid_ioc_name))
             None (Some VNone) true;
           mkArgument [] "ticket" store
             (as_type VInt
                (ticket_number_checker does_github_issue_exist_and_is_open
                   int))
             None (Some VNone) true ].
  destruct argv as [|ioc [|ticket rest]].
  - reflexivity.
  - apply Forall_cons in Hargv as [Hi _]. cbn [consume].
    rewrite classify_plain by done. cbn [positionals].
    unfold get_values, as_type, ioc_name_checker. cbn [type choices].
    destruct (is_valid_ioc_name ioc); reflexivity.
  - apply Forall_cons in Hargv as [Hi Hargv].
    apply Forall_cons in Hargv as [Ht Hrest]. cbn [consume].
    rewrite !classify_plain by done. cbn [positionals].
    unfold get_values, as_type, ioc_name_checker, ticket_number_checker.
    cbn [type choices].
    destruct (is_valid_ioc_name ioc); cbn [negb andb].
    2:{ by destruct rest; [destruct (int ticket)|]. }
    destruct (int ticket) as [n|].
    2:{ by destruct rest. }
    destruct (does_github_issue_exist_and_is_open n); cbn [negb].
    2:{ by destruct rest. }
    cbn [dest namespace seen extras].
    rewrite consume_extras by done.
    destruct rest as [|w rest]; reflexivity.
Qed.

(** *** The attributes of the namespace *)








(** *** Options that are not given *)










(** *** Options that are given *)




(** *** Help *)


End ArgParserProofs.

Section CommandLineExamples.

Import step arg_parser.




(** ** Examples *)

Example format_02d_examples :
  map format_02d [2; 9; 10; 99; 100]
  = ["02"; "09"; "10"; "99"; "100"]%string.
Proof. reflexivity. Qed.

Example create_ioc_from_template_three_devices :
  map (fun x => (population_template x, x.2 !! p.INDEX))
    (populations
       (calls (create_ioc_from_template quiet 1%positive)
          {[ 1%positive := demo_device 3 ]}))
  = [ (TemplateDir "5_1", None);
      (TemplateDir "5_2", Some (VStr "02"));
      (TemplateDir "5_2", Some (VStr "03")) ].
Proof. vm_compute. reflexivity. Qed.

Example parse_arguments_rejects_unknown_level :
  demo_parse_arguments ["CHOP"; "42"; "--log_level"; "TRACE"]%string
  = Err (SystemExit 2).
Proof. vm_compute. reflexivity. Qed.

Example parse_arguments_rejects_closed_ticket :
  demo_parse_arguments ["CHOP"; "0"]%string = Err (SystemExit 2).
Proof. vm_compute. reflexivity. Qed.

Example parse_arguments_abbreviated_options :
  demo_parse_arguments
    ["CHOP"; "42"; "--device_n=chopper"; "--device_c"; "3"; "-i"]%string
  = Ok (<["device_name"%string := VStr "chopper"]>
          (<["device_count"%string := VInt 3]>
             (<["interactive"%string := VBool true]>
                (minimal_namespace "CHOP" 42)))).
Proof. vm_compute. reflexivity. Qed.

Example parse_arguments_ambiguous_abbreviation :
  demo_parse_arguments ["CHOP"; "42"; "--device"; "x"]%string
  = Err (SystemExit 2).
Proof. vm_compute. reflexivity. Qed.

Lemma parse_arguments_positionals_only_witness :
  demo_parse_arguments ["CHOP"; "forty-two"]%string = Err (SystemExit 2).
Proof.
  apply (parse_arguments_positionals_only demo_valid_name demo_valid_name
           demo_valid_count demo_issue_open demo_int
           ["CHOP"; "forty-two"]%string).
  repeat constructor.
Defined.






End CommandLineExamples.
